(** * AI Studio: the three-stage generation workflow of [app.py]

    A shallow embedding of the Streamlit script [app.py]: the three stage
    functions [step1_enhance_prompt], [step2_generate_sketch] and
    [step3_generate_render], and the workflow block that runs them in
    sequence and stores their results in [st.session_state].

    Conventions of the embedding.
    - A Python [str] is a [string]; one [ascii] stands for one character.
    - A Python [bytes] object is a [list byte].
    - A Python value that may be [None] is an [option].
    - The effects of the script (calls to the backend, messages shown with
      Streamlit, the session state) are threaded explicitly in [State]. *)

From Stdlib Require Import QArith Strings.Byte Strings.Ascii Strings.String.
From stdpp Require Import gmap strings list fin_maps relations.

Abbreviation bytes := (list byte).

(** ** Python strings *)

Module Py.

(** [str.isspace] on the characters with code point below 256. *)
Definition isspace (c : ascii) : bool :=
  let n := nat_of_ascii c in
  ((9 <=? n) && (n <=? 13)) || ((28 <=? n) && (n <=? 32))
  || (n =? 133) || (n =? 160).

Definition is_empty (s : string) : bool :=
  match s with EmptyString => true | String _ _ => false end.

Fixpoint lstrip (s : string) : string :=
  match s with
  | EmptyString => EmptyString
  | String c s' => if isspace c then lstrip s' else s
  end.

Fixpoint rstrip (s : string) : string :=
  match s with
  | EmptyString => EmptyString
  | String c s' =>
      let r := rstrip s' in
      if isspace c && is_empty r then EmptyString else String c r
  end.

(** [s.strip()] *)
Definition strip (s : string) : string := rstrip (lstrip s).

(** [s.isspace()] for a non-empty [s]; true on the empty string here. *)
Fixpoint all_space (s : string) : bool :=
  match s with
  | EmptyString => true
  | String c s' => isspace c && all_space s'
  end.

(** [s[:n]] *)
Fixpoint slice_to (n : nat) (s : string) : string :=
  match n, s with
  | O, _ => EmptyString
  | S _, EmptyString => EmptyString
  | S n', String c s' => String c (slice_to n' s')
  end.

Definition nl : string := String (ascii_of_nat 10) EmptyString.

End Py.

(** ** The objects of the [google.genai] client library

    Only the attributes the script reads are kept.  The library declares
    [candidates], [content], [parts], [inline_data], the [data] of a blob
    and the [text] property as optional: each may be [None]. *)

Record Blob := { data : option bytes; mime_type : string }.

Record Part := { part_text : option string; inline_data : option Blob }.

Record Content := { parts : option (list Part) }.

Record Candidate := { content : option Content }.

Record GenerateContentResponse := {
  candidates : option (list Candidate);
  text : option string  (* the [response.text] property *)
}.

Record GenerateContentConfig := {
  max_output_tokens : option Z;
  temperature : option Q;
  top_p : option Q;
  top_k : option Z
}.

(** What is passed as [contents]: a string (stages 1 and 2) or a list of
    strings and parts (stage 3). *)
Inductive ContentItem := ItemStr (s : string) | ItemPart (p : Part).
Inductive Contents := ContentsStr (s : string) | ContentsList (l : list ContentItem).

Record Request := {
  model : string;
  contents : Contents;
  config : option GenerateContentConfig
}.

(** A call either returns a response or raises an exception; the string is
    [str(e)]. *)
Inductive Reply := Returned (r : GenerateContentResponse) | Raised (e : string).

(** The client handle.  Its answer may depend on the calls made before. *)
Definition Client := list Request → Request → Reply.

(** ** Effects *)

(** What the script shows or prints. *)
Inductive Event :=
| StError (msg : string)                       (* st.error(msg) *)
| StWrite (msg : string)                       (* st.write(msg) *)
| StImage (img : bytes) (caption : string)     (* st.image(img, caption=...) *)
| StatusOpen (label : string)                  (* with st.status(label) *)
| StatusUpdate (label : string) (state : string) (* status.update(...) *)
| PyPrint (msg : string)                         (* print(msg) *)
| PrintExc.                                    (* traceback.print_exc() *)

(** The values stored in [st.session_state]. *)
Inductive value := VNone | VStr (s : string) | VBytes (b : bytes).

Record State := {
  session_state : gmap string value;
  calls : list Request;     (* requests sent to the backend, oldest first *)
  ui : list Event           (* events, oldest first *)
}.

Definition M (A : Type) : Type := State → A * State.

Definition ret {A} (a : A) : M A := λ s, (a, s).
Definition bind {A B} (m : M A) (f : A → M B) : M B :=
  λ s, let '(a, s') := m s in f a s'.

Notation "x ←' m ; f" := (bind m (λ x, f))
  (at level 100, m at next level, f at level 200, right associativity,
   format "x  ←'  m ;  '/' f").
Notation "m ;;' f" := (bind m (λ _, f))
  (at level 100, f at level 200, right associativity).

Definition emit (e : Event) : M unit :=
  λ s, (tt, {| session_state := session_state s; calls := calls s;
               ui := ui s ++ [e] |}).

(** [client.models.generate_content(model=..., contents=..., config=...)] *)
Definition generate_content (c : Client) (req : Request) : M Reply :=
  λ s, (c (calls s) req,
        {| session_state := session_state s; calls := calls s ++ [req];
           ui := ui s |}).

(** The state once [req] has been sent. *)
Definition sent (req : Request) (s : State) : State :=
  {| session_state := session_state s; calls := calls s ++ [req]; ui := ui s |}.

(** The state once the events [es] have been shown. *)
Definition shown (es : list Event) (s : State) : State :=
  {| session_state := session_state s; calls := calls s; ui := ui s ++ es |}.

(** [str(e)] of the [AttributeError] raised by reading an attribute of [None]. *)
Definition none_has_no (attr : string) : string :=
  "'NoneType' object has no attribute '" +:+ attr +:+ "'".

(** ** Module level of the script (lines 12-27) *)

Section Script.

(** [os.environ] *)
Context (environ : gmap string string).

(** [genai.Client(vertexai=True, project=..., location=...)]: the handle it
    returns, or [inl e] when it raises. *)
Context (genai_Client : option string → string → string + Client).

(** [Image.open(io.BytesIO(b))] succeeds ([true]) or raises ([false]). *)
Context (Image_open : bytes → bool).

Definition MODEL_STEP1 : string := "gemini-2.0-flash-lite".
Definition MODEL_STEP2 : string := "gemini-2.5-flash-image".
Definition MODEL_TEXT : string :=
  default "gemini-2.0-flash-lite" (environ !! "MODEL_TEXT").
Definition MODEL_IMAGE : string :=
  default "gemini-2.5-flash-image" (environ !! "MODEL_IMAGE").

Definition project_id : option string := environ !! "GOOGLE_CLOUD_PROJECT".
Definition location : string :=
  default "us-central1" (environ !! "GOOGLE_CLOUD_REGION").

(** [try: client = genai.Client(...) except Exception: client = None] *)
Definition client : option Client :=
  match genai_Client project_id location with
  | inr c => Some c
  | inl _ => None
  end.

(** ** Stage 1 (lines 29-49) *)

Definition step1_instruction : string :=
  "Expand this room description into 1-2 short sentences with key details. Be very brief (under 20 words)."
  +:+ Py.nl +:+ Py.nl.

Definition step1_prompt (base_prompt : string) : string :=
  step1_instruction +:+
  "Room: " +:+ Py.slice_to 200 base_prompt.   (* Truncate *)

Definition step1_config : GenerateContentConfig :=
  {| max_output_tokens := Some 50%Z; temperature := Some 0.7%Q;
     top_p := None; top_k := None |}.

(** The arguments of the call of lines 38-45. *)
Definition step1_request (base_prompt : string) : Request :=
  let prompt := step1_prompt base_prompt in
  {| model := MODEL_TEXT; contents := ContentsStr prompt;
     config := Some step1_config |}.

Definition step1_enhance_prompt (base_prompt : string) : M (option string) :=
  match client with
  | None => ret None
  | Some c =>
      reply ←' generate_content c (step1_request base_prompt);
      match reply with
      | Returned response =>
          match text response with
          | Some t => ret (Some (Py.strip t))
          | None =>   (* None.strip() raises inside the try *)
              emit (StError ("Step 1 Error: " +:+ none_has_no "strip"));;'
              ret None
          end
      | Raised e =>
          emit (StError ("Step 1 Error: " +:+ e));;'
          ret None
      end
  end.

(** ** Stage 2 (lines 51-79) *)

Definition step2_prompt (enhanced_prompt : string) : string :=
  "Create a clean black-and-white architectural line drawing sketch. "
  +:+ "Pure black lines on white background. No shading, no color, no grayscale. "
  +:+ "Show perspective, layout, and all furniture/objects clearly."
  +:+ Py.nl +:+ Py.nl +:+
  "Room: " +:+ enhanced_prompt.

(** The loop of lines 69-71. *)
Fixpoint step2_scan (ps : list Part) : option bytes :=
  match ps with
  | [] => None
  | part :: rest =>
      match inline_data part with
      | Some blob => data blob
      | None => step2_scan rest
      end
  end.

(** Lines 68-73: the value returned, or [inl e] when an exception is raised. *)
Definition step2_inspect (response : GenerateContentResponse)
  : string + option bytes :=
  match candidates response with
  | None | Some [] => inr None
  | Some (first :: _) =>
      match content first with
      | None => inl (none_has_no "parts")
      | Some ct =>
          match parts ct with
          | None | Some [] => inr None
          | Some ps => inr (step2_scan ps)
          end
      end
  end.

(** The handler of lines 74-79. *)
Definition step2_except (e : string) : M (option bytes) :=
  emit (StError ("Step 2 Error: " +:+ e));;'
  emit (PyPrint ("DEBUG STEP 2 ERROR: " +:+ e));;'
  emit PrintExc;;'
  ret None.

(** The arguments of the call of lines 62-65. *)
Definition step2_request (enhanced_prompt : string) : Request :=
  let sketch_prompt := step2_prompt enhanced_prompt in
  {| model := MODEL_IMAGE; contents := ContentsStr sketch_prompt;
     config := None |}.

Definition step2_generate_sketch (enhanced_prompt : string) : M (option bytes) :=
  match client with
  | None => ret None
  | Some c =>
      reply ←' generate_content c (step2_request enhanced_prompt);
      match reply with
      | Returned response =>
          match step2_inspect response with
          | inr v => ret v
          | inl e => step2_except e
          end
      | Raised e => step2_except e
      end
  end.

(** ** Stage 3 (lines 81-117) *)

Definition render_prompt : string :=
  "Transform this into a high-end 3D render. "
  +:+ "Style: photorealistic architectural visualization (archviz). "
  +:+ "Ultra-high resolution textures, ray-traced lighting, soft shadows, volumetric light, "
  +:+ "realistic reflections, micro-surface details, natural color grading, and lens effects.".

Definition step3_config : GenerateContentConfig :=
  {| max_output_tokens := None; temperature := Some 0.0%Q;
     top_p := Some 1.0%Q; top_k := Some 40%Z |}.

(** The loop of lines 111-113. *)
Fixpoint step3_scan (ps : list Part) : option bytes :=
  match ps with
  | [] => None
  | part :: rest =>
      match inline_data part with
      | Some blob => data blob
      | None => step3_scan rest
      end
  end.

(** Lines 110-114. *)
Definition step3_inspect (response : GenerateContentResponse)
  : string + option bytes :=
  match candidates response with
  | None | Some [] => inr None
  | Some (first :: _) =>
      match content first with
      | None => inl (none_has_no "parts")
      | Some ct =>
          match parts ct with
          | None | Some [] => inr None
          | Some ps => inr (step3_scan ps)
          end
      end
  end.

(** The handler of lines 115-117. *)
Definition step3_except (e : string) : M (option bytes) :=
  emit (StError ("Step 3 Error: " +:+ e));;'
  ret None.

(** The arguments of the call of lines 93-108. *)
Definition step3_request (sketch_bytes : bytes) : Request :=
  let image_part :=
    {| part_text := None;
       inline_data :=
         Some {| data := Some sketch_bytes; mime_type := "image/png" |} |} in
  {| model := MODEL_IMAGE;
     contents := ContentsList [ItemStr render_prompt; ItemPart image_part];
     config := Some step3_config |}.

Definition step3_generate_render (sketch_bytes : bytes) : M (option bytes) :=
  match client with
  | None => ret None
  | Some c =>
      reply ←' generate_content c (step3_request sketch_bytes);
      match reply with
      | Returned response =>
          match step3_inspect response with
          | inr v => ret v
          | inl e => step3_except e
          end
      | Raised e => step3_except e
      end
  end.

(** ** The form (lines 156-215) *)

Context (room_type design_style material_focus color_palette : string).
Context (additional_details : string).
Context (generate_btn : bool).

(** Line 207. *)
Definition base_prompt : string :=
  design_style +:+ " " +:+ room_type +:+ " with focus on " +:+ material_focus
  +:+ " and " +:+ color_palette +:+ " tones. " +:+ additional_details.

(** ** The workflow block (lines 218-256) *)

(** Python truthiness of a stored value. *)
Definition truthy (v : value) : bool :=
  match v with
  | VNone => false
  | VStr s => negb (Py.is_empty s)
  | VBytes b => match b with [] => false | _ :: _ => true end
  end.

Definition of_str (r : option string) : value :=
  match r with Some s => VStr s | None => VNone end.
Definition of_bytes (r : option bytes) : value :=
  match r with Some b => VBytes b | None => VNone end.

(** [st.session_state.key = v] *)
Definition assign (key : string) (v : value) (s : State) : State :=
  {| session_state := <[key := v]> (session_state s);
     calls := calls s; ui := ui s |}.

(** [if key not in st.session_state: st.session_state.key = v] *)
Definition init_slot (key : string) (v : value) (s : State) : State :=
  match session_state s !! key with
  | Some _ => s
  | None => assign key v s
  end.

(** How a run of the script ends: it reaches the footer, [st.stop()] ends
    it, or an exception escapes. *)
Inductive Outcome := Finished | Stopped | Crashed.

(** Program points of the workflow block, named by their line in [app.py]. *)
Inductive Line :=
| L218 | L222 | L223 | L224
| L228 | L229 | L238 | L239 | L250 | L251
| Halt (o : Outcome).

Definition Machine : Type := Line * State.

Definition say (e : Event) (s : State) : State := snd (emit e s).

(** One statement of the block.  [None]: the run has ended.  Where a slot
    is read, the cases of a missing slot and of a value of another kind
    than its stage stores end the run with [Crashed]; they are never
    reached. *)
Definition step (m : Machine) : option Machine :=
  let '(l, s) := m in
  match l with
  | L218 => Some (if generate_btn then L222 else Halt Finished, s)
  | L222 => Some (L223, init_slot "step1_text" (VStr "") s)
  | L223 => Some (L224, init_slot "step2_image" VNone s)
  | L224 => Some (L228, init_slot "step3_image" VNone s)
  | L228 =>
      let s := say (StatusOpen "Step 1: Enhancing Design Brief...") s in
      let '(r, s) := step1_enhance_prompt base_prompt s in
      Some (L229, assign "step1_text" (of_str r) s)
  | L229 =>
      match session_state s !! "step1_text" with
      | Some v =>
          if truthy v then
            match v with
            | VStr t =>
                let s := say (StWrite ("**Enhanced Brief:** " +:+ t)) s in
                Some (L238, say (StatusUpdate "Brief Enhanced!" "complete") s)
            | _ => Some (Halt Crashed, s)
            end
          else Some (Halt Stopped, say (StatusUpdate "Step 1 Failed" "error") s)
      | None => Some (Halt Crashed, s)
      end
  | L238 =>
      match session_state s !! "step1_text" with
      | Some (VStr t) =>
          let s := say (StatusOpen "Step 2: Generating Architectural Sketch...") s in
          let '(r, s) := step2_generate_sketch t s in
          Some (L239, assign "step2_image" (of_bytes r) s)
      | _ => Some (Halt Crashed, s)
      end
  | L239 =>
      match session_state s !! "step2_image" with
      | Some v =>
          if truthy v then
            match v with
            | VBytes b =>
                if Image_open b then
                  let s := say (StImage b "GenAI Sketch") s in
                  Some (L250, say (StatusUpdate "Sketch Generated!" "complete") s)
                else Some (Halt Crashed, s)
            | _ => Some (Halt Crashed, s)
            end
          else Some (Halt Stopped, say (StatusUpdate "Step 2 Failed" "error") s)
      | None => Some (Halt Crashed, s)
      end
  | L250 =>
      match session_state s !! "step2_image" with
      | Some (VBytes b) =>
          let s := say (StatusOpen "Step 3: Rendering Photorealistic Image...") s in
          let '(r, s) := step3_generate_render b s in
          Some (L251, assign "step3_image" (of_bytes r) s)
      | _ => Some (Halt Crashed, s)
      end
  | L251 =>
      match session_state s !! "step3_image" with
      | Some v =>
          if truthy v then
            match v with
            | VBytes b =>
                if Image_open b then
                  let s := say (StImage b "Final Render") s in
                  Some (Halt Finished, say (StatusUpdate "Render Complete!" "complete") s)
                else Some (Halt Crashed, s)
            | _ => Some (Halt Crashed, s)
            end
          else Some (Halt Finished, say (StatusUpdate "Step 3 Failed" "error") s)
      | None => Some (Halt Crashed, s)
      end
  | Halt _ => None
  end.

(** [step] as a relation, and the points a run passes through. *)
Definition steps_to (m m' : Machine) : Prop := step m = Some m'.

Definition reaches : Machine → Machine → Prop := rtc steps_to.

(** Run for at most [fuel] statements. *)
Fixpoint exec (fuel : nat) (m : Machine) : Machine :=
  match fuel with
  | O => m
  | S fuel' => match step m with Some m' => exec fuel' m' | None => m end
  end.

(** A run of the script on the session state [ss]: it starts at line 218
    with no call made and nothing shown.  No run takes more than ten
    statements. *)
Definition start (ss : gmap string value) : Machine :=
  (L218, {| session_state := ss; calls := []; ui := [] |}).

Definition run (ss : gmap string value) : Machine := exec 10 (start ss).

End Script.

(** ** Reading a run *)

(** The three slots of the run, in stage order. *)
Definition slot_key (n : nat) : string :=
  match n with
  | 1 => "step1_text"
  | 2 => "step2_image"
  | _ => "step3_image"
  end.

(** What a reader finds under [key]; a key that is absent reads as [None]. *)
Definition lookup_slot (ss : gmap string value) (key : string) : value :=
  default VNone (ss !! key).

Definition slot (s : State) (key : string) : value :=
  lookup_slot (session_state s) key.

(** A slot is filled when the test of lines 229, 239 and 251 accepts it. *)
Definition filled (s : State) (key : string) : bool := truthy (slot s key).

(** A later slot is filled only if all earlier slots are. *)
Definition fill_invariant (s : State) : Prop :=
  (filled s "step2_image" = true → filled s "step1_text" = true) ∧
  (filled s "step3_image" = true →
     filled s "step1_text" = true ∧ filled s "step2_image" = true).

(** The parts of a candidate, none when it has no content or no part list. *)
Definition candidate_parts (c : Candidate) : list Part :=
  match content c with
  | Some ct => default [] (parts ct)
  | None => []
  end.

(** The same response with every declared MIME type replaced through [f]. *)
Definition retype_part (f : string → string) (p : Part) : Part :=
  {| part_text := part_text p;
     inline_data :=
       match inline_data p with
       | Some b => Some {| data := data b; mime_type := f (mime_type b) |}
       | None => None
       end |}.

Definition retype_candidate (f : string → string) (c : Candidate) : Candidate :=
  {| content :=
       match content c with
       | Some ct => Some {| parts := map (retype_part f) <$> parts ct |}
       | None => None
       end |}.

Definition retype (f : string → string) (r : GenerateContentResponse)
  : GenerateContentResponse :=
  {| candidates := map (retype_candidate f) <$> candidates r; text := text r |}.

(** The line that tests the result of stage [n]. *)
Definition branch_line (n : nat) : Line :=
  match n with
  | 1 => L229
  | 2 => L239
  | _ => L251
  end.

(** Position of a line in the block. *)
Definition rank (l : Line) : nat :=
  match l with
  | L218 => 0 | L222 => 1 | L223 => 2 | L224 => 3
  | L228 => 4 | L229 => 5 | L238 => 6 | L239 => 7 | L250 => 8 | L251 => 9
  | Halt _ => 10
  end.

(** The most calls a run can have made when it is at line [l]. *)
Definition calls_bound (l : Line) : nat :=
  match l with
  | L218 | L222 | L223 | L224 | L228 => 0
  | L229 | L238 => 1
  | L239 | L250 => 2
  | L251 | Halt _ => 3
  end.

(** Lines 222-224 on the session state alone. *)
Definition init_map (key : string) (v : value) (ss : gmap string value)
  : gmap string value :=
  match ss !! key with
  | Some _ => ss
  | None => <[key := v]> ss
  end.

Definition initialised (ss : gmap string value) : gmap string value :=
  init_map "step3_image" VNone
    (init_map "step2_image" VNone (init_map "step1_text" (VStr "") ss)).


(** A slot that reads as empty. *)
Definition empty_slot (ss : gmap string value) (key : string) : Prop :=
  truthy (lookup_slot ss key) = false.

(** What holds at each line of a run started on the session state [ss]. *)
Definition run_invariant (ss : gmap string value) (m : Machine) : Prop :=
  let '(l, s) := m in
  length (calls s) ≤ calls_bound l ∧
  (empty_slot ss "step2_image" → empty_slot ss "step3_image" →
   fill_invariant s) ∧
  match l with
  | L218 | L222 => session_state s = ss
  | L223 => session_state s = init_map "step1_text" (VStr "") ss
  | L224 =>
      session_state s
      = init_map "step2_image" VNone (init_map "step1_text" (VStr "") ss)
  | L228 => session_state s = initialised ss
  | L229 =>
      slot s "step2_image" = lookup_slot ss "step2_image" ∧
      slot s "step3_image" = lookup_slot ss "step3_image" ∧
      ∃ r, session_state s !! "step1_text" = Some (of_str r)
  | L238 =>
      slot s "step2_image" = lookup_slot ss "step2_image" ∧
      slot s "step3_image" = lookup_slot ss "step3_image" ∧
      ∃ t, session_state s !! "step1_text" = Some (VStr t) ∧ t ≠ ""
  | L239 =>
      slot s "step3_image" = lookup_slot ss "step3_image" ∧
      (∃ t, session_state s !! "step1_text" = Some (VStr t) ∧ t ≠ "") ∧
      ∃ r, session_state s !! "step2_image" = Some (of_bytes r)
  | L250 =>
      slot s "step3_image" = lookup_slot ss "step3_image" ∧
      (∃ t, session_state s !! "step1_text" = Some (VStr t) ∧ t ≠ "") ∧
      ∃ b, session_state s !! "step2_image" = Some (VBytes b) ∧ b ≠ []
  | L251 =>
      (∃ t, session_state s !! "step1_text" = Some (VStr t) ∧ t ≠ "") ∧
      (∃ b, session_state s !! "step2_image" = Some (VBytes b) ∧ b ≠ []) ∧
      ∃ r, session_state s !! "step3_image" = Some (of_bytes r)
  | Halt _ => True
  end.

(** ** The connection indicator (lines 136-137) *)

Section Page.

Context (environ : gmap string string).
Context (genai_Client : option string → string → string + Client).

Definition status_color : string :=
  match client environ genai_Client with
  | Some _ => "#00e676"
  | None => "#ff1744"
  end.

Definition status_text : string :=
  match client environ genai_Client with
  | Some _ => "System Online"
  | None => "System Offline"
  end.

End Page.

(** ** Reading strings, states and requests *)

Definition first_char (s : string) : option ascii :=
  match s with
  | EmptyString => None
  | String c _ => Some c
  end.

Fixpoint last_char (s : string) : option ascii :=
  match s with
  | EmptyString => None
  | String c EmptyString => Some c
  | String _ s' => last_char s'
  end.

(** What the form puts before the free text in line 207. *)
Definition brief_prefix
    (room_type design_style material_focus color_palette : string) : string :=
  design_style +:+ " " +:+ room_type +:+ " with focus on " +:+ material_focus
  +:+ " and " +:+ color_palette +:+ " tones. ".

(** The text in slot 1 and the bytes in slot 2, as stages 2 and 3 read them. *)
Definition slot_text (s : State) : string :=
  match slot s "step1_text" with
  | VStr t => t
  | _ => ""
  end.

Definition slot_sketch (s : State) : bytes :=
  match slot s "step2_image" with
  | VBytes b => b
  | _ => []
  end.

(** The requests of a complete run that ends in the state [s]. *)
Definition expected_requests (environ : gmap string string) (brief : string)
    (s : State) : list Request :=
  [step1_request environ brief;
   step2_request environ (slot_text s);
   step3_request environ (slot_sketch s)].

(** The number of requests a run has sent when it is at line [l]. *)
Definition sent_at (online : bool) (l : Line) : nat :=
  if online then calls_bound l else 0.

Definition handoff_invariant (environ : gmap string string) (online : bool)
    (brief : string) (m : Machine) : Prop :=
  let '(l, s) := m in
  match l with
  | Halt _ => ∃ k, k ≤ 3 ∧ calls s = take k (expected_requests environ brief s)
  | _ => calls s = take (sent_at online l) (expected_requests environ brief s)
  end.

Definition is_error (e : Event) : bool :=
  match e with
  | StError _ => true
  | _ => false
  end.

(** The messages shown with [st.error]. *)
Definition errors (s : State) : list Event := filter is_error (ui s).

(** The label and the outcome of a failed stage (lines 233-234, 245-246
    and 256). *)
Definition failed_label (n : nat) : string :=
  match n with
  | 1 => "Step 1 Failed"
  | 2 => "Step 2 Failed"
  | _ => "Step 3 Failed"
  end.

Definition failed_outcome (n : nat) : Outcome :=
  match n with
  | 1 | 2 => Stopped
  | _ => Finished
  end.

(** An error is shown for a stage only when the stage stores [None]. *)
Definition error_invariant (m : Machine) : Prop :=
  let '(l, s) := m in
  let at_test key :=
    errors s = [] ∨
    (length (errors s) = 1 ∧ session_state s !! key = Some VNone) in
  match l with
  | L229 => at_test "step1_text"
  | L239 => at_test "step2_image"
  | L251 => at_test "step3_image"
  | Halt _ => length (errors s) ≤ 1
  | _ => errors s = []
  end.

(** ** Sample data *)

Module Sample.

Definition png : bytes := [x89; x50; x4e; x47; x0d; x0a; x1a; x0a].
Definition pdf : bytes := [x25; x50; x44; x46].

Definition text_part (t : string) : Part :=
  {| part_text := Some t; inline_data := None |}.
Definition inline_part (d : bytes) (m : string) : Part :=
  {| part_text := None;
     inline_data := Some {| data := Some d; mime_type := m |} |}.


Definition candidate_of (ps : list Part) : Candidate :=
  {| content := Some {| parts := Some ps |} |}.

(** A response with one candidate. *)
Definition response_of (ps : list Part) (t : option string)
  : GenerateContentResponse :=
  {| candidates := Some [candidate_of ps]; text := t |}.

Definition text_response (t : string) : GenerateContentResponse :=
  response_of [text_part t] (Some t).
Definition image_response (d : bytes) : GenerateContentResponse :=
  response_of [inline_part d "image/png"] None.

(** A candidate that was blocked: it has no content. *)
Definition blocked : GenerateContentResponse :=
  {| candidates := Some [{| content := None |}]; text := None |}.

(** A client that always gives the same reply. *)
Definition always (r : Reply) : Client := λ _ _, r.

(** A client whose n-th call gets the n-th reply of [rs]. *)
Definition scripted (rs : list Reply) : Client :=
  λ log _, default (Raised "503 UNAVAILABLE") (rs !! length log).

(** Construction of the client succeeds with [c], or raises. *)
Definition online (c : Client) : option string → string → string + Client :=
  λ _ _, inr c.
Definition offline (e : string) : option string → string → string + Client :=
  λ _ _, inl e.

Definition s0 : State := {| session_state := ∅; calls := []; ui := [] |}.

Definition long_details : string :=
  string_of_list_ascii (replicate 201 "x"%char).

(** Runs of the script on the form of the spec's scenario; every image is
    taken to decode. *)
Definition resume (replies : list Reply) (fuel : nat) (m : Machine) : Machine :=
  exec ∅ (online (scripted replies)) (λ _, true)
    "Bedroom" "Scandinavian" "Wood" "Neutral" "" true fuel m.

Definition script (replies : list Reply) (fuel : nat)
    (ss : gmap string value) : Machine :=
  resume replies fuel (start ss).

Definition enhanced : string :=
  "A bright Scandinavian bedroom with light wood furniture and neutral linens.".

(** All three stages succeed. *)
Definition replies_ok : list Reply :=
  [Returned (text_response enhanced); Returned (image_response png);
   Returned (image_response png)].

(** Stage 2 gets a reply with text only. *)
Definition replies_refused : list Reply :=
  [Returned (text_response enhanced);
   Returned (text_response "I cannot draw this.")].

(** The first call raises. *)
Definition replies_down : list Reply := [Raised "429 RESOURCE_EXHAUSTED"].

(** The session state a successful run leaves behind. *)
Definition after_success : gmap string value :=
  session_state (snd (script replies_ok 10 ∅)).

End Sample.

(** * Properties *)

(** ** Strings *)

Lemma lstrip_all_space s : Py.all_space s = true → Py.lstrip s = "".
Proof.
  induction s as [|c s IH]; simpl; [done|].
  intros [Hc Hs]%andb_true_iff. rewrite Hc. auto.
Qed.

Lemma strip_all_space s : Py.all_space s = true → Py.strip s = "".
Proof. intros H. unfold Py.strip. by rewrite lstrip_all_space. Qed.

Lemma length_slice_to n s :
  n ≤ String.length s → String.length (Py.slice_to n s) = n.
Proof.
  revert s. induction n as [|n IH]; intros [|c s]; simpl; try lia.
  intros H. rewrite IH; lia.
Qed.

Lemma slice_to_prefix n s : String.prefix (Py.slice_to n s) s = true.
Proof.
  revert s. induction n as [|n IH]; intros [|c s]; simpl; try done.
  destruct (Ascii.ascii_dec c c); [apply IH | done].
Qed.

Lemma length_append (a b : string) :
  String.length (a +:+ b) = String.length a + String.length b.
Proof. induction a as [|c a IH]; simpl; [done | by rewrite IH]. Qed.

(** ** The stage functions, one reply at a time *)

Section Stages.

Context (environ : gmap string string).
Context (genai_Client : option string → string → string + Client).


Lemma step1_offline base_prompt s :
  client environ genai_Client = None → step1_enhance_prompt environ genai_Client base_prompt s = (None, s).
Proof. intros H. unfold step1_enhance_prompt. by rewrite H. Qed.

Lemma step2_offline enhanced_prompt s :
  client environ genai_Client = None → step2_generate_sketch environ genai_Client enhanced_prompt s = (None, s).
Proof. intros H. unfold step2_generate_sketch. by rewrite H. Qed.

Lemma step3_offline sketch_bytes s :
  client environ genai_Client = None → step3_generate_render environ genai_Client sketch_bytes s = (None, s).
Proof. intros H. unfold step3_generate_render. by rewrite H. Qed.

Lemma step1_online c base_prompt s :
  client environ genai_Client = Some c →
  step1_enhance_prompt environ genai_Client base_prompt s =
    let s' := sent (step1_request environ base_prompt) s in
    match c (calls s) (step1_request environ base_prompt) with
    | Returned response =>
        match text response with
        | Some t => (Some (Py.strip t), s')
        | None =>
            (None, shown [StError ("Step 1 Error: " +:+ none_has_no "strip")] s')
        end
    | Raised e => (None, shown [StError ("Step 1 Error: " +:+ e)] s')
    end.
Proof.
  intros H. unfold step1_enhance_prompt. rewrite H.
  unfold bind, generate_content. simpl.
  destruct (c _ _) as [response|e]; [destruct (text response)|]; done.
Qed.

Lemma step2_except_eq e s :
  step2_except e s =
    (None, shown [StError ("Step 2 Error: " +:+ e);
                  PyPrint ("DEBUG STEP 2 ERROR: " +:+ e); PrintExc] s).
Proof.
  unfold step2_except, bind, emit, ret, shown. simpl.
  by rewrite <- !app_assoc.
Qed.

Lemma step3_except_eq e s :
  step3_except e s = (None, shown [StError ("Step 3 Error: " +:+ e)] s).
Proof. done. Qed.

Lemma step2_online c enhanced_prompt s :
  client environ genai_Client = Some c →
  step2_generate_sketch environ genai_Client enhanced_prompt s =
    let s' := sent (step2_request environ enhanced_prompt) s in
    match c (calls s) (step2_request environ enhanced_prompt) with
    | Returned response =>
        match step2_inspect response with
        | inr v => (v, s')
        | inl e => step2_except e s'
        end
    | Raised e => step2_except e s'
    end.
Proof.
  intros H. unfold step2_generate_sketch. rewrite H.
  unfold bind, generate_content. simpl.
  destruct (c _ _) as [response|e]; [destruct (step2_inspect response)|]; done.
Qed.

Lemma step3_online c sketch_bytes s :
  client environ genai_Client = Some c →
  step3_generate_render environ genai_Client sketch_bytes s =
    let s' := sent (step3_request environ sketch_bytes) s in
    match c (calls s) (step3_request environ sketch_bytes) with
    | Returned response =>
        match step3_inspect response with
        | inr v => (v, s')
        | inl e => step3_except e s'
        end
    | Raised e => step3_except e s'
    end.
Proof.
  intros H. unfold step3_generate_render. rewrite H.
  unfold bind, generate_content. simpl.
  destruct (c _ _) as [response|e]; [destruct (step3_inspect response)|]; done.
Qed.

End Stages.

(** ** Extraction of the image (stages 2 and 3) *)

Lemma step2_scan_first before part after blob :
  Forall (λ p, inline_data p = None) before →
  inline_data part = Some blob →
  step2_scan (before ++ part :: after) = data blob.
Proof.
  intros Hb Hp. induction Hb as [|p before Hnone _ IH]; simpl.
  - by rewrite Hp.
  - by rewrite Hnone.
Qed.

Lemma step2_scan_none ps :
  Forall (λ p, inline_data p = None) ps → step2_scan ps = None.
Proof. induction 1 as [|p ps Hnone _ IH]; simpl; [done | by rewrite Hnone]. Qed.

Lemma scans_agree ps : step3_scan ps = step2_scan ps.
Proof.
  induction ps as [|p ps IH]; simpl; [done|].
  destruct (inline_data p); [done | apply IH].
Qed.

Lemma inspects_agree response : step3_inspect response = step2_inspect response.
Proof.
  unfold step3_inspect, step2_inspect.
  repeat case_match; try done; by rewrite scans_agree.
Qed.

Lemma step2_inspect_first response first others ct
    (before : list Part) part (after : list Part) blob :
  candidates response = Some (first :: others) →
  content first = Some ct →
  parts ct = Some (before ++ part :: after) →
  Forall (λ p, inline_data p = None) before →
  inline_data part = Some blob →
  step2_inspect response = inr (data blob).
Proof.
  intros Hc Hct Hps Hb Hp. unfold step2_inspect. rewrite Hc, Hct, Hps.
  rewrite (step2_scan_first before part after blob Hb Hp).
  by destruct before.
Qed.

(** A response without a candidate, or whose first candidate has content but
    no part with inline data, makes [step2_inspect] return [None] without
    raising. *)
Lemma step2_inspect_no_image response :
  match candidates response with
  | Some (first :: _) =>
      is_Some (content first) ∧
      Forall (λ p, inline_data p = None) (candidate_parts first)
  | _ => True
  end →
  step2_inspect response = inr None.
Proof.
  unfold step2_inspect, candidate_parts.
  destruct (candidates response) as [[|first others]|]; try done.
  intros [[ct Hct] Hall]. rewrite Hct in *.
  destruct (parts ct) as [[|p ps]|]; [done| |done].
  simpl in Hall. by rewrite (step2_scan_none _ Hall).
Qed.

Lemma step2_scan_retype f ps :
  step2_scan (map (retype_part f) ps) = step2_scan ps.
Proof.
  induction ps as [|p ps IH]; simpl; [done|].
  destruct (inline_data p); [done | apply IH].
Qed.

Lemma step2_inspect_retype f response :
  step2_inspect (retype f response) = step2_inspect response.
Proof.
  unfold step2_inspect, retype. simpl.
  destruct (candidates response) as [[|first others]|]; simpl; try done.
  destruct (content first) as [ct|]; simpl; [|done].
  destruct (parts ct) as [[|p ps]|]; simpl; try done.
  destruct (inline_data p); simpl; [done|].
  by rewrite step2_scan_retype.
Qed.




(** C9.  The payload of the first part with inline data is returned by both
    stages whatever its declared MIME type and whatever its bytes: nothing
    checks that it is an image.  Changing the declared MIME types of a
    response never changes what is extracted. *)
Theorem inline_payload_returned_unchecked
    environ genai_Client c s enhanced_prompt sketch_bytes
    response first others ct (before : list Part) part (after : list Part)
    (payload : bytes) (mime : string) :
  client environ genai_Client = Some c →
  candidates response = Some (first :: others) →
  content first = Some ct →
  parts ct = Some (before ++ part :: after) →
  Forall (λ p, inline_data p = None) before →
  inline_data part = Some {| data := Some payload; mime_type := mime |} →
  (c (calls s) (step2_request environ enhanced_prompt) = Returned response →
   fst (step2_generate_sketch environ genai_Client enhanced_prompt s)
   = Some payload) ∧
  (c (calls s) (step3_request environ sketch_bytes) = Returned response →
   fst (step3_generate_render environ genai_Client sketch_bytes s)
   = Some payload) ∧
  (∀ f r, step2_inspect (retype f r) = step2_inspect r) ∧
  (∀ f r, step3_inspect (retype f r) = step3_inspect r).
Proof.
  intros Hc Hcs Hct Hps Hb Hp.
  pose proof (step2_inspect_first _ _ _ _ _ _ _ _ Hcs Hct Hps Hb Hp) as Hi.
  simpl in Hi. split_and!.
  - intros Hr. rewrite (step2_online _ _ c) by done. simpl. by rewrite Hr, Hi.
  - intros Hr. rewrite (step3_online _ _ c) by done. simpl.
    by rewrite Hr, inspects_agree, Hi.
  - apply step2_inspect_retype.
  - intros f r. rewrite !inspects_agree. apply step2_inspect_retype.
Qed.

Lemma inline_payload_returned_unchecked_witness :
  let response :=
    Sample.response_of [Sample.inline_part Sample.pdf "application/pdf"] None in
  let mk := Sample.online (Sample.always (Returned response)) in
  fst (step2_generate_sketch ∅ mk "A bright room." Sample.s0) = Some Sample.pdf ∧
  fst (step3_generate_render ∅ mk Sample.png Sample.s0) = Some Sample.pdf.
Proof.
  intros response mk.
  destruct (inline_payload_returned_unchecked ∅ mk
              (Sample.always (Returned response))
              Sample.s0 "A bright room." Sample.png response
              (Sample.candidate_of [Sample.inline_part Sample.pdf "application/pdf"])
              [] {| parts := Some [Sample.inline_part Sample.pdf "application/pdf"] |}
              [] (Sample.inline_part Sample.pdf "application/pdf") []
              Sample.pdf "application/pdf")
    as (H2 & H3 & _); try reflexivity.
  - constructor.
  - split; [apply H2 | apply H3]; reflexivity.
Defined.

(** What is extracted depends on the first candidate only. *)
Lemma step2_inspect_first_candidate first others t t' :
  step2_inspect {| candidates := Some (first :: others); text := t |}
  = step2_inspect {| candidates := Some [first]; text := t' |}.
Proof. done. Qed.

Lemma step2_inspect_first_without_image response first others :
  candidates response = Some (first :: others) →
  Forall (λ p, inline_data p = None) (candidate_parts first) →
  step2_inspect response = inr None
  ∨ step2_inspect response = inl (none_has_no "parts").
Proof.
  intros Hcs Hall. unfold step2_inspect. rewrite Hcs.
  unfold candidate_parts in Hall.
  destruct (content first) as [ct|]; [left | by right].
  destruct (parts ct) as [[|p ps]|]; [done| |done].
  simpl in Hall. by rewrite (step2_scan_none _ Hall).
Qed.

(** C10.  Only the parts of the first candidate are scanned.  When the first
    candidate carries no inline data, both stages return [None], whatever
    the other candidates hold; and what a response yields is what the
    response cut down to its first candidate yields. *)
Theorem only_first_candidate_scanned
    environ genai_Client c s enhanced_prompt sketch_bytes response first others :
  client environ genai_Client = Some c →
  candidates response = Some (first :: others) →
  Forall (λ p, inline_data p = None) (candidate_parts first) →
  (c (calls s) (step2_request environ enhanced_prompt) = Returned response →
   fst (step2_generate_sketch environ genai_Client enhanced_prompt s) = None) ∧
  (c (calls s) (step3_request environ sketch_bytes) = Returned response →
   fst (step3_generate_render environ genai_Client sketch_bytes s) = None) ∧
  step2_inspect response
  = step2_inspect {| candidates := Some [first]; text := text response |} ∧
  step3_inspect response
  = step3_inspect {| candidates := Some [first]; text := text response |}.
Proof.
  intros Hc Hcs Hall.
  pose proof (step2_inspect_first_without_image _ _ _ Hcs Hall) as Hi.
  split_and!.
  - intros Hr. rewrite (step2_online _ _ c) by done. simpl. rewrite Hr.
    destruct Hi as [-> | ->]; [done | by rewrite step2_except_eq].
  - intros Hr. rewrite (step3_online _ _ c) by done. simpl.
    rewrite Hr, inspects_agree.
    destruct Hi as [-> | ->]; [done | by rewrite step3_except_eq].
  - destruct response as [cs t]. simpl in *. subst cs. done.
  - destruct response as [cs t]. simpl in *. subst cs. done.
Qed.

Lemma only_first_candidate_scanned_witness :
  let response :=
    {| candidates :=
         Some [Sample.candidate_of [Sample.text_part "I cannot draw this."];
               Sample.candidate_of [Sample.inline_part Sample.png "image/png"]];
       text := Some "I cannot draw this." |} in
  let mk := Sample.online (Sample.always (Returned response)) in
  fst (step2_generate_sketch ∅ mk "A bright room." Sample.s0) = None ∧
  fst (step3_generate_render ∅ mk Sample.png Sample.s0) = None.
Proof.
  intros response mk.
  destruct (only_first_candidate_scanned ∅ mk
              (Sample.always (Returned response))
              Sample.s0 "A bright room." Sample.png response
              (Sample.candidate_of [Sample.text_part "I cannot draw this."])
              [Sample.candidate_of [Sample.inline_part Sample.png "image/png"]])
    as (H2 & H3 & _); try reflexivity.
  - repeat constructor.
  - split; [apply H2 | apply H3]; reflexivity.
Defined.

(** A response with no inline data whose first candidate, if any, has
    content: both stages return [None] after one call and show nothing. *)
Lemma no_image_is_silent
    environ genai_Client c s enhanced_prompt sketch_bytes response :
  client environ genai_Client = Some c →
  match candidates response with
  | Some (first :: _) =>
      is_Some (content first) ∧
      Forall (λ p, inline_data p = None) (candidate_parts first)
  | _ => True
  end →
  (c (calls s) (step2_request environ enhanced_prompt) = Returned response →
   step2_generate_sketch environ genai_Client enhanced_prompt s
   = (None, sent (step2_request environ enhanced_prompt) s)) ∧
  (c (calls s) (step3_request environ sketch_bytes) = Returned response →
   step3_generate_render environ genai_Client sketch_bytes s
   = (None, sent (step3_request environ sketch_bytes) s)).
Proof.
  intros Hc Hno. pose proof (step2_inspect_no_image _ Hno) as Hi. split.
  - intros Hr. rewrite (step2_online _ _ c) by done. simpl. by rewrite Hr, Hi.
  - intros Hr. rewrite (step3_online _ _ c) by done. simpl.
    by rewrite Hr, inspects_agree, Hi.
Qed.

(** C4, at a response whose only candidate has no content.  Reading
    [.parts] of the missing content raises inside the [try]; the handler of
    transport errors takes over.  The stage behaves exactly as if the call
    itself had failed with that message: same value, same messages. *)
Theorem no_content_handled_as_service_error
    environ enhanced_prompt sketch_bytes s :
  let refusal := Sample.online (Sample.always (Returned Sample.blocked)) in
  let failure :=
    Sample.online (Sample.always (Raised (none_has_no "parts"))) in
  step2_generate_sketch environ refusal enhanced_prompt s
  = step2_generate_sketch environ failure enhanced_prompt s ∧
  step2_generate_sketch environ refusal enhanced_prompt s
  = (None,
     shown [StError "Step 2 Error: 'NoneType' object has no attribute 'parts'";
            PyPrint "DEBUG STEP 2 ERROR: 'NoneType' object has no attribute 'parts'";
            PrintExc]
       (sent (step2_request environ enhanced_prompt) s)) ∧
  step3_generate_render environ refusal sketch_bytes s
  = step3_generate_render environ failure sketch_bytes s ∧
  step3_generate_render environ refusal sketch_bytes s
  = (None,
     shown [StError "Step 3 Error: 'NoneType' object has no attribute 'parts'"]
       (sent (step3_request environ sketch_bytes) s)).
Proof.
  intros refusal failure.
  rewrite (step2_online environ refusal _ _ _ eq_refl).
  rewrite (step2_online environ failure _ _ _ eq_refl).
  rewrite (step3_online environ refusal _ _ _ eq_refl).
  rewrite (step3_online environ failure _ _ _ eq_refl).
  simpl. rewrite step2_except_eq. done.
Qed.

(** C6.  When the free text has more than 200 characters, the text put
    after "Room: " in the stage-1 prompt is the first 200 characters of the
    brief, and the request is sent: nothing rejects the brief. *)
Theorem oversized_brief_truncated
    environ genai_Client
    room_type design_style material_focus color_palette additional_details :
  200 < String.length additional_details →
  let brief :=
    base_prompt room_type design_style material_focus color_palette
      additional_details in
  let embedded := Py.slice_to 200 brief in
  String.length embedded = 200 ∧
  String.prefix embedded brief = true ∧
  ∀ c s,
    client environ genai_Client = Some c →
    calls (snd (step1_enhance_prompt environ genai_Client brief s))
    = calls s ++
      [{| model := MODEL_TEXT environ;
          contents := ContentsStr (step1_instruction +:+ "Room: " +:+ embedded);
          config := Some step1_config |}].
Proof.
  intros Hlen brief embedded. split_and!.
  - apply length_slice_to. unfold brief, base_prompt.
    rewrite !length_append. lia.
  - apply slice_to_prefix.
  - intros c s Hc. rewrite (step1_online _ _ c) by done. simpl.
    destruct (c _ _) as [response|e]; [destruct (text response)|]; done.
Qed.

Lemma oversized_brief_truncated_witness :
  let brief :=
    base_prompt "Bedroom" "Scandinavian" "Wood" "Neutral" Sample.long_details in
  String.length (Py.slice_to 200 brief) = 200 ∧
  String.prefix (Py.slice_to 200 brief) brief = true.
Proof.
  intros brief.
  destruct (oversized_brief_truncated ∅ (Sample.offline "no project")
              "Bedroom" "Scandinavian" "Wood" "Neutral" Sample.long_details)
    as (H1 & H2 & _).
  - vm_compute. lia.
  - split; [exact H1 | exact H2].
Defined.

(** ** The workflow *)

Lemma session_state_init_slot key v s :
  session_state (init_slot key v s) = init_map key v (session_state s).
Proof. unfold init_slot, init_map. by destruct (session_state s !! key). Qed.

Lemma calls_init_slot key v s : calls (init_slot key v s) = calls s.
Proof. unfold init_slot. by destruct (session_state s !! key). Qed.

Lemma ui_init_slot key v s : ui (init_slot key v s) = ui s.
Proof. unfold init_slot. by destruct (session_state s !! key). Qed.

Lemma lookup_init_map_ne key key' v (ss : gmap string value) :
  key ≠ key' → init_map key v ss !! key' = ss !! key'.
Proof.
  intros Hne. unfold init_map.
  destruct (ss !! key); [done | by rewrite lookup_insert_ne].
Qed.

Lemma lookup_init_map_eq key v (ss : gmap string value) :
  init_map key v ss !! key = Some (default v (ss !! key)).
Proof.
  unfold init_map. destruct (ss !! key) eqn:E; simpl; [done|].
  by rewrite lookup_insert_eq.
Qed.

Lemma lookup_slot_init_map_none key key' (ss : gmap string value) :
  lookup_slot (init_map key VNone ss) key' = lookup_slot ss key'.
Proof.
  unfold lookup_slot. destruct (decide (key = key')) as [->|Hne].
  - rewrite lookup_init_map_eq. by destruct (ss !! key').
  - by rewrite lookup_init_map_ne.
Qed.

Lemma truthy_of_str r : truthy (of_str r) = true → ∃ t, r = Some t ∧ t ≠ "".
Proof. destruct r as [[|a t]|]; simpl; intros; try done. by eexists. Qed.

Lemma truthy_of_bytes r : truthy (of_bytes r) = true → ∃ b, r = Some b ∧ b ≠ [].
Proof. destruct r as [[|a t]|]; simpl; intros; try done. by eexists. Qed.

Lemma truthy_str t : t ≠ "" → truthy (VStr t) = true.
Proof. by destruct t. Qed.

Lemma truthy_bytes (b : bytes) : b ≠ [] → truthy (VBytes b) = true.
Proof. by destruct b. Qed.

(** What a stage leaves behind: the session state is untouched and at most
    one request is added. *)
Lemma step1_frame environ genai_Client base_prompt s r s' :
  step1_enhance_prompt environ genai_Client base_prompt s = (r, s') →
  session_state s' = session_state s ∧
  (calls s' = calls s ∨ ∃ req, calls s' = calls s ++ [req]).
Proof.
  destruct (client environ genai_Client) as [c|] eqn:Hc.
  - rewrite (step1_online _ _ c) by done. simpl.
    destruct (c _ _) as [response|e]; [destruct (text response)|];
      intros [= <- <-]; simpl; eauto.
  - rewrite step1_offline by done. intros [= <- <-]. eauto.
Qed.

Lemma step2_frame environ genai_Client enhanced_prompt s r s' :
  step2_generate_sketch environ genai_Client enhanced_prompt s = (r, s') →
  session_state s' = session_state s ∧
  (calls s' = calls s ∨ ∃ req, calls s' = calls s ++ [req]).
Proof.
  destruct (client environ genai_Client) as [c|] eqn:Hc.
  - rewrite (step2_online _ _ c) by done. simpl.
    destruct (c _ _) as [response|e]; [destruct (step2_inspect response)|];
      rewrite ?step2_except_eq; intros [= <- <-]; simpl; eauto.
  - rewrite step2_offline by done. intros [= <- <-]. eauto.
Qed.

Lemma step3_frame environ genai_Client sketch_bytes s r s' :
  step3_generate_render environ genai_Client sketch_bytes s = (r, s') →
  session_state s' = session_state s ∧
  (calls s' = calls s ∨ ∃ req, calls s' = calls s ++ [req]).
Proof.
  destruct (client environ genai_Client) as [c|] eqn:Hc.
  - rewrite (step3_online _ _ c) by done. simpl.
    destruct (c _ _) as [response|e]; [destruct (step3_inspect response)|];
      rewrite ?step3_except_eq; intros [= <- <-]; simpl; eauto.
  - rewrite step3_offline by done. intros [= <- <-]. eauto.
Qed.

Lemma lookup_slot_init_map_ne key key' v (ss : gmap string value) :
  key ≠ key' → lookup_slot (init_map key v ss) key' = lookup_slot ss key'.
Proof. intros. unfold lookup_slot. by rewrite lookup_init_map_ne. Qed.

Lemma lookup_slot_initialised ss key :
  key ≠ "step1_text" → lookup_slot (initialised ss) key = lookup_slot ss key.
Proof.
  intros Hne. unfold initialised.
  rewrite !lookup_slot_init_map_none. by apply lookup_slot_init_map_ne.
Qed.

Lemma slot_assign_eq key v s : slot (assign key v s) key = v.
Proof. unfold slot, lookup_slot, assign. simpl. by rewrite lookup_insert_eq. Qed.

Lemma slot_assign_ne key key' v s :
  key ≠ key' → slot (assign key v s) key' = slot s key'.
Proof.
  intros. unfold slot, lookup_slot, assign. simpl. by rewrite lookup_insert_ne.
Qed.

Lemma slot_ext s s' key :
  session_state s' = session_state s → slot s' key = slot s key.
Proof. unfold slot. by intros ->. Qed.

Lemma slot_lookup s key v : session_state s !! key = Some v → slot s key = v.
Proof. unfold slot, lookup_slot. by intros ->. Qed.

Lemma fill_invariant_ext s s' :
  session_state s' = session_state s → fill_invariant s → fill_invariant s'.
Proof. unfold fill_invariant, filled, slot. by intros ->. Qed.

Lemma fill_invariant_later_empty s :
  filled s "step2_image" = false → filled s "step3_image" = false →
  fill_invariant s.
Proof. unfold fill_invariant. intros -> ->. done. Qed.

Lemma fill_invariant_last_empty s :
  filled s "step1_text" = true → filled s "step3_image" = false →
  fill_invariant s.
Proof. unfold fill_invariant. intros -> ->. done. Qed.

Lemma fill_invariant_first_two s :
  filled s "step1_text" = true → filled s "step2_image" = true →
  fill_invariant s.
Proof. unfold fill_invariant. intros -> ->. done. Qed.

Lemma slot_say e s key : slot (say e s) key = slot s key.
Proof. done. Qed.

Lemma calls_say e s : calls (say e s) = calls s.
Proof. done. Qed.

Lemma session_state_say e s : session_state (say e s) = session_state s.
Proof. done. Qed.

#[local] Arguments slot : simpl never.
#[local] Arguments lookup_slot : simpl never.
#[local] Arguments filled : simpl never.
#[local] Arguments say : simpl never.
#[local] Arguments assign : simpl never.

Ltac unfold_step := unfold steps_to, step in *.

Ltac unfold_reaches := unfold reaches in *.

Ltac unfold_run := unfold run, start.

Ltac exec_unfold := cbn [exec].

Ltac say_away := rewrite ?slot_say, ?calls_say, ?session_state_say in *.

Ltac stage_frame H :=
  match type of H with
  | step1_enhance_prompt _ _ _ _ = _ => apply step1_frame in H
  | step2_generate_sketch _ _ _ _ = _ => apply step2_frame in H
  | step3_generate_render _ _ _ _ = _ => apply step3_frame in H
  end.

Ltac calls_le Hcs :=
  destruct Hcs as [-> | [? ->]]; rewrite ?length_app; simpl; lia.

Section Workflow.

Context (environ : gmap string string).
Context (genai_Client : option string → string → string + Client).
Context (Image_open : bytes → bool).
Context (room_type design_style material_focus color_palette : string).
Context (additional_details : string).
Context (generate_btn : bool).

Local Abbreviation step :=
  (step environ genai_Client Image_open room_type design_style material_focus
     color_palette additional_details generate_btn).
Local Abbreviation steps_to :=
  (steps_to environ genai_Client Image_open room_type design_style
     material_focus color_palette additional_details generate_btn).
Local Abbreviation reaches :=
  (reaches environ genai_Client Image_open room_type design_style
     material_focus color_palette additional_details generate_btn).
Local Abbreviation exec :=
  (exec environ genai_Client Image_open room_type design_style
     material_focus color_palette additional_details generate_btn).
Local Abbreviation run :=
  (run environ genai_Client Image_open room_type design_style
     material_focus color_palette additional_details generate_btn).

Lemma run_invariant_start ss : run_invariant ss (start ss).
Proof.
  unfold start, run_invariant. simpl. split_and!; [lia| |done].
  intros H2 H3. by apply fill_invariant_later_empty.
Qed.

Lemma run_invariant_step ss m m' :
  run_invariant ss m → steps_to m m' → run_invariant ss m'.
Proof.
  destruct m as [l s], m' as [l' s']. intros (Hcalls & Hfill & Hl) Hstep.
  unfold_step. destruct l.
  - (* 218 *)
    injection Hstep as <- <-. destruct generate_btn; simpl in *; split_and!;
      auto; lia.
  - (* 222 *)
    injection Hstep as <- <-. simpl in *.
    rewrite calls_init_slot, session_state_init_slot, Hl. split_and!; [lia| |done].
    intros H2 H3. apply fill_invariant_later_empty; unfold filled, slot;
      rewrite session_state_init_slot, Hl, lookup_slot_init_map_ne; done.
  - (* 223 *)
    injection Hstep as <- <-. simpl in *.
    rewrite calls_init_slot, session_state_init_slot, Hl. split_and!; [lia| |done].
    intros H2 H3. apply fill_invariant_later_empty; unfold filled, slot;
      rewrite session_state_init_slot, Hl, lookup_slot_init_map_none,
        lookup_slot_init_map_ne; done.
  - (* 224 *)
    injection Hstep as <- <-. simpl in *.
    rewrite calls_init_slot, session_state_init_slot, Hl. split_and!; [lia| |done].
    intros H2 H3. apply fill_invariant_later_empty; unfold filled, slot;
      rewrite session_state_init_slot, Hl, !lookup_slot_init_map_none,
        lookup_slot_init_map_ne; done.
  - (* 228 *)
    destruct (step1_enhance_prompt _ _ _ _) as [r s1] eqn:E1.
    stage_frame E1. simpl in E1. destruct E1 as [Hss Hcs].
    injection Hstep as <- <-. simpl in Hcalls.
    assert (H2 : slot (assign "step1_text" (of_str r) s1) "step2_image"
                 = lookup_slot ss "step2_image").
    { rewrite slot_assign_ne by done. unfold slot.
      rewrite Hss, Hl. by apply lookup_slot_initialised. }
    assert (H3 : slot (assign "step1_text" (of_str r) s1) "step3_image"
                 = lookup_slot ss "step3_image").
    { rewrite slot_assign_ne by done. unfold slot.
      rewrite Hss, Hl. by apply lookup_slot_initialised. }
    split_and!; simpl.
    + calls_le Hcs.
    + intros E2 E3. apply fill_invariant_later_empty; unfold filled;
        by rewrite ?H2, ?H3.
    + done.
    + done.
    + exists r. by rewrite lookup_insert_eq.
  - (* 229 *)
    destruct Hl as (H2 & H3 & r & Hr). rewrite Hr in Hstep.
    destruct (truthy (of_str r)) eqn:Ht.
    + apply truthy_of_str in Ht as (t & -> & Hne). simpl in Hstep.
      injection Hstep as <- <-. simpl in *. say_away.
      split_and!; [lia| |done|done|by eauto].
      intros E2 E3. apply fill_invariant_later_empty; unfold filled; say_away.
      * by rewrite H2.
      * by rewrite H3.
    + injection Hstep as <- <-. simpl in *. say_away. split_and!; [lia| |done].
      intros E2 E3. apply fill_invariant_later_empty; unfold filled; say_away.
      * by rewrite H2.
      * by rewrite H3.
  - (* 238 *)
    destruct Hl as (H2 & H3 & t & Ht & Hne). rewrite Ht in Hstep.
    destruct (step2_generate_sketch _ _ _ _) as [r s1] eqn:E1.
    stage_frame E1. simpl in E1. destruct E1 as [Hss Hcs].
    injection Hstep as <- <-. simpl in Hcalls.
    assert (H3' : slot (assign "step2_image" (of_bytes r) s1) "step3_image"
                  = lookup_slot ss "step3_image").
    { rewrite slot_assign_ne by done. by rewrite (slot_ext s). }
    assert (H1' : session_state (assign "step2_image" (of_bytes r) s1)
                    !! "step1_text" = Some (VStr t)).
    { simpl. rewrite lookup_insert_ne by done. by rewrite Hss. }
    split_and!.
    + simpl. calls_le Hcs.
    + intros E2 E3. apply fill_invariant_last_empty; unfold filled.
      * rewrite (slot_lookup _ _ _ H1'). by apply truthy_str.
      * by rewrite H3'.
    + done.
    + by eauto.
    + exists r. simpl. by rewrite lookup_insert_eq.
  - (* 239 *)
    destruct Hl as (H3 & (t & Ht & Hne) & r & Hr). rewrite Hr in Hstep.
    assert (H1 : filled s "step1_text" = true).
    { unfold filled. rewrite (slot_lookup _ _ _ Ht). by apply truthy_str. }
    destruct (truthy (of_bytes r)) eqn:Htr.
    + apply truthy_of_bytes in Htr as (b & -> & Hb). simpl in Hstep.
      destruct (Image_open b); injection Hstep as <- <-; simpl in *; say_away.
      * split_and!; [lia| |done|by eauto|by eauto].
        intros E2 E3. apply fill_invariant_last_empty; unfold filled in *;
          say_away; [done|]. by rewrite H3.
      * split_and!; [lia| |done].
        intros E2 E3. apply fill_invariant_last_empty; [done|].
        unfold filled. by rewrite H3.
    + injection Hstep as <- <-. simpl in *. say_away. split_and!; [lia| |done].
      intros E2 E3. apply fill_invariant_last_empty; unfold filled in *;
        say_away; [done|]. by rewrite H3.
  - (* 250 *)
    destruct Hl as (H3 & (t & Ht & Hne) & b & Hb & Hbne). rewrite Hb in Hstep.
    destruct (step3_generate_render _ _ _ _) as [r s1] eqn:E1.
    stage_frame E1. simpl in E1. destruct E1 as [Hss Hcs].
    injection Hstep as <- <-. simpl in Hcalls.
    assert (H1' : session_state (assign "step3_image" (of_bytes r) s1)
                    !! "step1_text" = Some (VStr t)).
    { simpl. rewrite lookup_insert_ne by done. by rewrite Hss. }
    assert (H2' : session_state (assign "step3_image" (of_bytes r) s1)
                    !! "step2_image" = Some (VBytes b)).
    { simpl. rewrite lookup_insert_ne by done. by rewrite Hss. }
    split_and!.
    + simpl. calls_le Hcs.
    + intros _ _. apply fill_invariant_first_two; unfold filled.
      * rewrite (slot_lookup _ _ _ H1'). by apply truthy_str.
      * rewrite (slot_lookup _ _ _ H2'). by apply truthy_bytes.
    + by eauto.
    + by eauto.
    + exists r. simpl. by rewrite lookup_insert_eq.
  - (* 251 *)
    destruct Hl as ((t & Ht & Hne) & (b & Hb & Hbne) & r & Hr).
    rewrite Hr in Hstep.
    assert (Hf : fill_invariant s).
    { apply fill_invariant_first_two; unfold filled.
      - rewrite (slot_lookup _ _ _ Ht). by apply truthy_str.
      - rewrite (slot_lookup _ _ _ Hb). by apply truthy_bytes. }
    destruct (truthy (of_bytes r)) eqn:Htr.
    + apply truthy_of_bytes in Htr as (b' & -> & Hb'). simpl in Hstep.
      destruct (Image_open b'); injection Hstep as <- <-; simpl in *;
        say_away; split_and!; auto; try lia;
        intros _ _; by apply (fill_invariant_ext s).
    + injection Hstep as <- <-. simpl in *. say_away. split_and!; auto; try lia;
        intros _ _; by apply (fill_invariant_ext s).
  - done.
Qed.

Lemma run_invariant_reaches ss m :
  reaches (start ss) m → run_invariant ss m.
Proof.
  unfold_reaches. revert m. apply rtc_ind_r.
  - apply run_invariant_start.
  - intros m m' _ Hstep IH. by eapply run_invariant_step.
Qed.

Lemma halted o s m : reaches (Halt o, s) m → m = (Halt o, s).
Proof.
  unfold_reaches. intros H. inversion H as [|? m' ? Hstep]; [done|].
  unfold_step. done.
Qed.

Lemma reaches_exec n m : reaches m (exec n m).
Proof.
  unfold_reaches. revert m. induction n as [|n IH]; intros m; simpl.
  - apply rtc_refl.
  - destruct (step m) as [m'|] eqn:E; [|apply rtc_refl].
    eapply rtc_l; [exact E | apply IH].
Qed.

(** Once the result of a stage has been found empty, the run only reports
    it: no slot changes and no request is sent. *)
Lemma after_failure n s m :
  filled s (slot_key n) = false →
  reaches (branch_line n, s) m →
  (fst m = branch_line n ∨ ∃ o, fst m = Halt o) ∧
  session_state (snd m) = session_state s ∧ calls (snd m) = calls s.
Proof.
  intros Hempty H. unfold_reaches.
  inversion H as [|? m' ? Hstep Hrest]; subst; [by auto|].
  assert (∃ o s', m' = (Halt o, s') ∧ session_state s' = session_state s
                  ∧ calls s' = calls s) as (o & s' & -> & Hss & Hcs).
  { unfold filled, slot, lookup_slot in Hempty. unfold_step.
    destruct n as [|[|[|n]]]; simpl in *;
      destruct (session_state s !! _) as [v|]; simpl in Hempty;
      rewrite ?Hempty in Hstep; injection Hstep as <-; eauto. }
  apply halted in Hrest as ->. simpl. eauto.
Qed.

(** The only exception that escapes the block is the one [Image.open]
    raises on bytes it cannot decode: the other [Crashed] cases of [step]
    (a slot that is missing or holds a value of the wrong type when it is
    read) are never reached. *)
Lemma crash_only_when_image_fails ss s :
  reaches (start ss) (Halt Crashed, s) →
  ∃ b, Image_open b = false ∧
       (session_state s !! "step2_image" = Some (VBytes b) ∨
        session_state s !! "step3_image" = Some (VBytes b)).
Proof.
  unfold_reaches. intros H.
  apply rtc_inv_r in H as [Heq | ([l s'] & Hreach & Hstep)]; [done|].
  apply run_invariant_reaches in Hreach as (_ & _ & Hl).
  unfold_step. destruct l; try done.
  - by destruct generate_btn.
  - by destruct (step1_enhance_prompt _ _ _ _).
  - destruct Hl as (_ & _ & r & Hr). rewrite Hr in Hstep.
    by destruct r as [[|? ?]|].
  - destruct Hl as (_ & _ & t & Ht & _). rewrite Ht in Hstep.
    by destruct (step2_generate_sketch _ _ _ _).
  - destruct Hl as (_ & _ & r & Hr). rewrite Hr in Hstep.
    destruct r as [[|x b]|]; simpl in Hstep; try done.
    destruct (Image_open (x :: b)) eqn:E; [done|].
    injection Hstep as <-. eauto.
  - destruct Hl as (_ & _ & b & Hb & _). rewrite Hb in Hstep.
    by destruct (step3_generate_render _ _ _ _).
  - destruct Hl as (_ & _ & r & Hr). rewrite Hr in Hstep.
    destruct r as [[|x b]|]; simpl in Hstep; try done.
    destruct (Image_open (x :: b)) eqn:E; [done|].
    injection Hstep as <-. eauto.
Qed.

(** C1, as the code has it.  When the value stored by stage [n] is found
    empty at its test (line 229, 239 or 251), the run goes on to no later
    stage: from then on it sends no request, so that at most [n] requests
    were sent in all; the slots of the later stages are as the run found
    them, hence empty if they were empty when the run started; and the
    slots of the earlier stages keep their filled values. *)
Theorem failure_halts_the_run ss n s m :
  1 ≤ n ≤ 3 →
  reaches (start ss) (branch_line n, s) →
  filled s (slot_key n) = false →
  reaches (branch_line n, s) m →
  (fst m = branch_line n ∨ ∃ o, fst m = Halt o) ∧
  calls (snd m) = calls s ∧
  length (calls (snd m)) ≤ n ∧
  (∀ k, n < k ≤ 3 →
     slot (snd m) (slot_key k) = lookup_slot ss (slot_key k) ∧
     (empty_slot ss (slot_key k) → filled (snd m) (slot_key k) = false)) ∧
  (∀ k, 1 ≤ k < n →
     slot (snd m) (slot_key k) = slot s (slot_key k) ∧
     filled (snd m) (slot_key k) = true).
Proof.
  intros Hn Hreach Hempty Hrest.
  apply run_invariant_reaches in Hreach as (Hcalls & _ & Hl).
  apply after_failure in Hrest as (Hline & Hss & Hcs); [|done].
  assert (Hslot : ∀ key, slot (snd m) key = slot s key).
  { intros key. by apply slot_ext. }
  split_and!; [done|done| | |].
  - rewrite Hcs. by destruct n as [|[|[|[|?]]]]; simpl in *; try lia.
  - intros k Hk.
    assert (slot (snd m) (slot_key k) = lookup_slot ss (slot_key k)) as Hcarried.
    { rewrite Hslot.
      destruct n as [|[|[|?]]]; try lia; destruct k as [|[|[|[|?]]]]; try lia;
        simpl in *; tauto. }
    split; [done|]. unfold empty_slot, filled. by rewrite Hcarried.
  - intros k Hk. unfold filled. rewrite Hslot. split; [done|].
    destruct n as [|[|[|?]]]; try lia; destruct k as [|[|[|?]]]; try lia;
      simpl in *.
    + destruct Hl as (_ & (t & Ht & Hne) & _).
      rewrite (slot_lookup _ _ _ Ht). by apply truthy_str.
    + destruct Hl as ((t & Ht & Hne) & _).
      rewrite (slot_lookup _ _ _ Ht). by apply truthy_str.
    + destruct Hl as (_ & (b & Hb & Hne) & _).
      rewrite (slot_lookup _ _ _ Hb). by apply truthy_bytes.
Qed.

(** C2, as the code has it.  In a run that starts with the sketch and render
    slots empty, at every point a later slot is filled only if the earlier
    ones are. *)
Theorem fill_invariant_when_later_slots_start_empty ss m :
  empty_slot ss "step2_image" →
  empty_slot ss "step3_image" →
  reaches (start ss) m →
  fill_invariant (snd m).
Proof.
  intros H2 H3 Hreach. destruct m as [l s].
  apply run_invariant_reaches in Hreach as (_ & Hfill & _). by apply Hfill.
Qed.

Lemma step_rank l s l' s' : steps_to (l, s) (l', s') → rank l < rank l'.
Proof.
  intros Hstep. unfold_step.
  destruct l; repeat case_match; simplify_eq; simpl; lia.
Qed.








Local Abbreviation brief :=
  (base_prompt room_type design_style material_focus color_palette
     additional_details).

(** C3, as the code has it.  On a reply whose text is empty or only white
    space, stage 1 returns the empty string after its one call and shows
    no message, whereas a call that raises makes it return [None] after
    [st.error].  The workflow stores the empty string, finds it empty at
    line 229, reports that step 1 failed and stops: no request is sent for
    stage 2. *)
Theorem blank_text_returns_unreported_empty_string c s response t :
  client environ genai_Client = Some c →
  c (calls s) (step1_request environ brief) = Returned response →
  text response = Some t →
  Py.all_space t = true →
  step1_enhance_prompt environ genai_Client brief s
  = (Some "", sent (step1_request environ brief) s) ∧
  exec 2 (L228, s)
  = (Halt Stopped,
     {| session_state := <["step1_text" := VStr ""]> (session_state s);
        calls := calls s ++ [step1_request environ brief];
        ui := ui s ++ [StatusOpen "Step 1: Enhancing Design Brief...";
                       StatusUpdate "Step 1 Failed" "error"] |}) ∧
  (∀ mk c' s' e,
     client environ mk = Some c' →
     c' (calls s') (step1_request environ brief) = Raised e →
     step1_enhance_prompt environ mk brief s'
     = (None, shown [StError ("Step 1 Error: " +:+ e)]
                (sent (step1_request environ brief) s'))).
Proof.
  intros Hc Hr Ht Hblank.
  assert (Hstage : ∀ s1, calls s1 = calls s →
            step1_enhance_prompt environ genai_Client brief s1
            = (Some "", sent (step1_request environ brief) s1)).
  { intros s1 Hs1. rewrite (step1_online _ _ c) by done. simpl.
    by rewrite Hs1, Hr, Ht, strip_all_space. }
  split_and!.
  - by apply Hstage.
  - simpl. rewrite Hstage by done. simpl.
    unfold assign, say, sent. simpl. rewrite lookup_insert_eq. simpl.
    by rewrite <- app_assoc.
  - intros mk c' s' e Hc' Hr'. rewrite (step1_online _ _ c') by done.
    simpl. by rewrite Hr'.
Qed.

(** C7.  When the construction of the client raises, [client] is [None]:
    each stage function returns [None] at once and leaves the state as it
    was (no request, no message), and a run of the script sends no request
    and ends at the footer or at the [st.stop()] of stage 1. *)
Theorem backend_unavailable_short_circuits e :
  genai_Client (project_id environ) (location environ) = inl e →
  client environ genai_Client = None ∧
  (∀ base_prompt s,
     step1_enhance_prompt environ genai_Client base_prompt s = (None, s)) ∧
  (∀ enhanced_prompt s,
     step2_generate_sketch environ genai_Client enhanced_prompt s = (None, s)) ∧
  (∀ sketch_bytes s,
     step3_generate_render environ genai_Client sketch_bytes s = (None, s)) ∧
  (∀ ss,
     fst (run ss) = Halt (if generate_btn then Stopped else Finished) ∧
     calls (snd (run ss)) = []).
Proof.
  intros He.
  assert (Hc : client environ genai_Client = None).
  { unfold client. by rewrite He. }
  split_and!; [done| | | |].
  - intros. by apply step1_offline.
  - intros. by apply step2_offline.
  - intros. by apply step3_offline.
  - intros ss. unfold_run. destruct generate_btn; [|done].
    simpl. rewrite step1_offline by done. simpl.
    unfold assign. simpl. rewrite lookup_insert_eq. simpl.
    by rewrite !calls_init_slot.
Qed.

End Workflow.

(** ** Runs on sample data *)

(** The scenario of the spec: the three slots are filled and the run ends at
    the footer after three requests. *)
Example run_success :
  let m := Sample.script Sample.replies_ok 10 ∅ in
  fst m = Halt Finished ∧
  slot (snd m) "step1_text" = VStr Sample.enhanced ∧
  slot (snd m) "step2_image" = VBytes Sample.png ∧
  slot (snd m) "step3_image" = VBytes Sample.png ∧
  length (calls (snd m)) = 3.
Proof. vm_compute. done. Qed.

(** The second scenario: stage 2 gets text only and the run stops there. *)
Example run_refused :
  let m := Sample.script Sample.replies_refused 10 ∅ in
  fst m = Halt Stopped ∧
  slot (snd m) "step1_text" = VStr Sample.enhanced ∧
  slot (snd m) "step2_image" = VNone ∧
  slot (snd m) "step3_image" = VNone ∧
  length (calls (snd m)) = 2.
Proof. vm_compute. done. Qed.

(** C1 on the second scenario. *)
Lemma failure_halts_the_run_witness :
  let m := Sample.script Sample.replies_refused 10 ∅ in
  length (calls (snd m)) ≤ 2 ∧
  slot (snd m) "step3_image" = VNone ∧
  filled (snd m) "step1_text" = true.
Proof.
  intros m.
  pose (at_test := Sample.script Sample.replies_refused 7 ∅).
  assert (E : (branch_line 2, snd at_test) = at_test)
    by (vm_compute; reflexivity).
  assert (E' : m = Sample.resume Sample.replies_refused 3 at_test)
    by (vm_compute; reflexivity).
  destruct (failure_halts_the_run ∅
              (Sample.online (Sample.scripted Sample.replies_refused))
              (λ _, true) "Bedroom" "Scandinavian" "Wood" "Neutral" "" true
              ∅ 2 (snd at_test) m)
    as (_ & _ & Hcalls & Hlater & Hearlier).
  - lia.
  - rewrite E. apply reaches_exec.
  - vm_compute. reflexivity.
  - rewrite E, E'. apply reaches_exec.
  - split_and!.
    + exact Hcalls.
    + destruct (Hlater 3) as [H _]; [lia|]. exact H.
    + destruct (Hearlier 1) as [_ H]; [lia|]. exact H.
Defined.

(** C2 on the second scenario, from a session state without the slots. *)
Lemma fill_invariant_when_later_slots_start_empty_witness :
  fill_invariant (snd (Sample.script Sample.replies_refused 10 ∅)).
Proof.
  apply (fill_invariant_when_later_slots_start_empty ∅
           (Sample.online (Sample.scripted Sample.replies_refused))
           (λ _, true) "Bedroom" "Scandinavian" "Wood" "Neutral" "" true ∅).
  - vm_compute. reflexivity.
  - vm_compute. reflexivity.
  - apply reaches_exec.
Defined.

(** C2 fails on a session state left by an earlier run.  A first run fills
    the three slots; in the next run of the same session the first call
    raises: stage 1 stores [None] while the sketch and the render of the
    first run are still in their slots. *)
Lemma stale_slots_break_fill_invariant :
  let m := Sample.script Sample.replies_down 10 Sample.after_success in
  fill_invariant (snd (Sample.script Sample.replies_ok 10 ∅)) ∧
  reaches ∅ (Sample.online (Sample.scripted Sample.replies_down)) (λ _, true)
    "Bedroom" "Scandinavian" "Wood" "Neutral" "" true
    (start Sample.after_success) m ∧
  filled (snd m) "step1_text" = false ∧
  filled (snd m) "step2_image" = true ∧
  filled (snd m) "step3_image" = true ∧
  ¬ fill_invariant (snd m).
Proof.
  intros m. split_and!.
  - apply fill_invariant_first_two; vm_compute; reflexivity.
  - apply reaches_exec.
  - vm_compute. reflexivity.
  - vm_compute. reflexivity.
  - vm_compute. reflexivity.
  - intros [H _].
    assert (E : filled (snd m) "step2_image" = true) by (vm_compute; reflexivity).
    apply H in E. vm_compute in E. discriminate.
Qed.

(** C1 fails on a session state left by an earlier run.  The first call of
    the next run raises: stage 1 stores [None], the run stops at line 234
    after that one request, and stages 2 and 3 are not called; yet their
    slots are not empty: they still hold the sketch and the render of the
    earlier run. *)
Lemma stale_slots_outlive_a_failure :
  let at_test := Sample.script Sample.replies_down 5 Sample.after_success in
  let m := Sample.script Sample.replies_down 10 Sample.after_success in
  fst at_test = branch_line 1 ∧
  filled (snd at_test) (slot_key 1) = false ∧
  m = Sample.resume Sample.replies_down 5 at_test ∧
  fst m = Halt Stopped ∧
  length (calls (snd m)) = 1 ∧
  slot (snd m) "step2_image" = VBytes Sample.png ∧
  slot (snd m) "step3_image" = VBytes Sample.png ∧
  filled (snd m) "step2_image" = true ∧
  filled (snd m) "step3_image" = true.
Proof. vm_compute. split_and!; done. Qed.



(** C3 fails on a reply whose text is three spaces: stage 1 returns the
    empty string, not [None], and shows nothing. *)
Lemma blank_text_is_returned_silently :
  let reply := Returned (Sample.text_response "   ") in
  let r := step1_enhance_prompt ∅ (Sample.online (Sample.always reply))
             "Modern Bedroom with focus on Wood and Neutral tones. "
             Sample.s0 in
  Py.all_space "   " = true ∧
  fst r = Some "" ∧
  fst r ≠ None ∧
  ui (snd r) = [] ∧
  length (calls (snd r)) = 1.
Proof. vm_compute. split_and!; done. Qed.

(** C3 as amended, on the same reply. *)
Lemma blank_text_returns_unreported_empty_string_witness :
  let reply := Returned (Sample.text_response "   ") in
  let mk := Sample.online (Sample.always reply) in
  let brief := base_prompt "Bedroom" "Modern" "Wood" "Neutral" "" in
  step1_enhance_prompt ∅ mk brief Sample.s0
  = (Some "", sent (step1_request ∅ brief) Sample.s0) ∧
  fst (exec ∅ mk (λ _, true) "Bedroom" "Modern" "Wood" "Neutral" "" true 2
         (L228, Sample.s0)) = Halt Stopped.
Proof.
  intros reply mk brief.
  destruct (blank_text_returns_unreported_empty_string ∅ mk (λ _, true)
              "Bedroom" "Modern" "Wood" "Neutral" "" true
              (Sample.always reply) Sample.s0 (Sample.text_response "   ")
              "   ")
    as (Hstage & Hrun & _); try reflexivity.
  split; [exact Hstage | by rewrite Hrun].
Defined.

(** C7 when the construction of the client raises for want of a project. *)
Lemma backend_unavailable_short_circuits_witness :
  let mk := Sample.offline "Project ID is required for Vertex AI." in
  client ∅ mk = None ∧
  step1_enhance_prompt ∅ mk "Modern Bedroom" Sample.s0 = (None, Sample.s0) ∧
  step2_generate_sketch ∅ mk "A bright room." Sample.s0 = (None, Sample.s0) ∧
  step3_generate_render ∅ mk Sample.png Sample.s0 = (None, Sample.s0) ∧
  calls (snd (run ∅ mk (λ _, true) "Bedroom" "Modern" "Wood" "Neutral" "" true
                ∅)) = [].
Proof.
  intros mk.
  destruct (backend_unavailable_short_circuits ∅ mk (λ _, true)
              "Bedroom" "Modern" "Wood" "Neutral" "" true
              "Project ID is required for Vertex AI.")
    as (Hc & H1 & H2 & H3 & Hrun); [reflexivity|].
  split_and!; [exact Hc | apply H1 | apply H2 | apply H3 | apply Hrun].
Defined.

(** * Further properties of the stage functions *)

(** ** Trimming and slicing *)

Lemma lstrip_first s c :
  first_char (Py.lstrip s) = Some c → Py.isspace c = false.
Proof.
  induction s as [|a s IH]; simpl; [done|].
  destruct (Py.isspace a) eqn:E; [done|]. simpl. by intros [= <-].
Qed.

Lemma rstrip_first s c :
  first_char (Py.rstrip s) = Some c → first_char s = Some c.
Proof.
  destruct s as [|a s]; simpl; [done|].
  by destruct (Py.isspace a && Py.is_empty (Py.rstrip s)).
Qed.

Lemma rstrip_last s c :
  last_char (Py.rstrip s) = Some c → Py.isspace c = false.
Proof.
  induction s as [|a s IH]; simpl; [done|].
  destruct (Py.rstrip s) as [|b r] eqn:Er; simpl.
  - destruct (Py.isspace a) eqn:E; simpl; [done|]. by intros [= <-].
  - rewrite andb_false_r. simpl. exact IH.
Qed.

Lemma rstrip_empty s : Py.rstrip s = "" → Py.all_space s = true.
Proof.
  induction s as [|a s IH]; simpl; [done|].
  destruct (Py.isspace a); simpl; [|done].
  destruct (Py.rstrip s); simpl; [auto | done].
Qed.

Lemma all_space_lstrip s :
  Py.all_space (Py.lstrip s) = true → Py.all_space s = true.
Proof.
  induction s as [|a s IH]; simpl; [done|].
  destruct (Py.isspace a) eqn:E; simpl; [done|]. by rewrite E.
Qed.

Lemma strip_empty s : Py.strip s = "" ↔ Py.all_space s = true.
Proof.
  split; [|apply strip_all_space].
  intros H. by apply all_space_lstrip, rstrip_empty.
Qed.

Lemma slice_to_all n s : String.length s ≤ n → Py.slice_to n s = s.
Proof.
  revert s. induction n as [|n IH]; intros [|c s]; simpl; try done; [lia|].
  intros H. rewrite IH; [done | lia].
Qed.

Lemma length_slice_to_min n s :
  String.length (Py.slice_to n s) = n `min` String.length s.
Proof.
  revert s. induction n as [|n IH]; intros [|c s]; simpl; try done.
  by rewrite IH.
Qed.

Lemma slice_to_append n a b :
  String.length a ≤ n →
  Py.slice_to n (a +:+ b) = a +:+ Py.slice_to (n - String.length a) b.
Proof.
  revert n. induction a as [|c a IH]; intros n; simpl.
  - by rewrite Nat.sub_0_r.
  - destruct n as [|n]; simpl; [lia|]. intros H. rewrite IH; [done | lia].
Qed.

Lemma append_assoc (a b c : string) : (a +:+ b) +:+ c = a +:+ (b +:+ c).
Proof.
  induction a as [|x a IH]; [done|].
  change (String x ((a +:+ b) +:+ c) = String x (a +:+ (b +:+ c))).
  by rewrite IH.
Qed.

Lemma base_prompt_prefix rt ds mf cp ad :
  base_prompt rt ds mf cp ad = brief_prefix rt ds mf cp +:+ ad.
Proof. unfold base_prompt, brief_prefix. by rewrite !append_assoc. Qed.

Lemma lstrip_split s :
  ∃ before, s = before +:+ Py.lstrip s ∧ Py.all_space before = true.
Proof.
  induction s as [|a s (before & Hs & Hb)]; [by exists ""|]. simpl.
  destruct (Py.isspace a) eqn:E.
  - exists (String a before). split.
    + change (String a s = String a (before +:+ Py.lstrip s)). by rewrite <- Hs.
    + simpl. by rewrite E.
  - by exists "".
Qed.

Lemma rstrip_split s :
  ∃ after, s = Py.rstrip s +:+ after ∧ Py.all_space after = true.
Proof.
  induction s as [|a s (after & Hs & Ha)]; [by exists ""|]. simpl.
  destruct (Py.isspace a) eqn:E; destruct (Py.rstrip s) as [|b r] eqn:Er; simpl.
  - exists (String a after). split; [by rewrite Hs at 1|].
    simpl. by rewrite E.
  - exists after. split; [|done].
    change (String a s = String a (String b r +:+ after)). by rewrite <- Hs.
  - exists after. split; [|done].
    change (String a s = String a ("" +:+ after)). by rewrite <- Hs.
  - exists after. split; [|done].
    change (String a s = String a (String b r +:+ after)). by rewrite <- Hs.
Qed.

(** X1.  On a reply that has text, stage 1 returns, after its one call and
    without showing anything, that text without the white space around
    it: the text is white space, then what is returned, then white space,
    and what is returned neither starts nor ends with a white-space
    character.  It is the empty string exactly when the text is empty or
    white space only. *)
Theorem step1_returns_trimmed_text
    environ genai_Client c base_prompt s response t :
  client environ genai_Client = Some c →
  c (calls s) (step1_request environ base_prompt) = Returned response →
  text response = Some t →
  ∃ before r after,
    step1_enhance_prompt environ genai_Client base_prompt s
    = (Some r, sent (step1_request environ base_prompt) s) ∧
    t = before +:+ r +:+ after ∧
    Py.all_space before = true ∧
    Py.all_space after = true ∧
    (∀ ch, first_char r = Some ch → Py.isspace ch = false) ∧
    (∀ ch, last_char r = Some ch → Py.isspace ch = false) ∧
    (r = "" ↔ Py.all_space t = true).
Proof.
  intros Hc Hr Ht.
  destruct (lstrip_split t) as (before & Hbefore & Hb).
  destruct (rstrip_split (Py.lstrip t)) as (after & Hafter & Ha).
  exists before, (Py.strip t), after.
  rewrite (step1_online _ _ c) by done. simpl. rewrite Hr, Ht.
  split_and!; [done| |done|done| | |apply strip_empty].
  - unfold Py.strip. by rewrite <- Hafter.
  - intros ch H. unfold Py.strip in H.
    apply rstrip_first in H. by eapply lstrip_first.
  - intros ch H. by eapply rstrip_last.
Qed.

Lemma step1_returns_trimmed_text_witness :
  let reply := Returned (Sample.text_response "  A bright room.  ") in
  let mk := Sample.online (Sample.always reply) in
  ∃ before r after,
    step1_enhance_prompt ∅ mk "Modern Bedroom" Sample.s0
    = (Some r, sent (step1_request ∅ "Modern Bedroom") Sample.s0) ∧
    "  A bright room.  " = before +:+ r +:+ after ∧
    Py.all_space before = true ∧
    Py.all_space after = true ∧
    (∀ ch, first_char r = Some ch → Py.isspace ch = false) ∧
    (∀ ch, last_char r = Some ch → Py.isspace ch = false) ∧
    (r = "" ↔ Py.all_space "  A bright room.  " = true).
Proof.
  intros reply mk.
  apply (step1_returns_trimmed_text ∅ mk (Sample.always reply)
           "Modern Bedroom" Sample.s0
           (Sample.text_response "  A bright room.  ")); reflexivity.
Defined.

(** X2.  The request stage 1 sends carries, after "Room: ", the first
    [min 200 (len brief)] characters of the brief it was given; a brief of
    at most 200 characters is carried whole, unchanged. *)
Theorem short_brief_embedded_whole environ genai_Client c base_prompt s :
  client environ genai_Client = Some c →
  ∃ embedded,
    calls (snd (step1_enhance_prompt environ genai_Client base_prompt s))
    = calls s ++
      [{| model := MODEL_TEXT environ;
          contents := ContentsStr (step1_instruction +:+ "Room: " +:+ embedded);
          config := Some step1_config |}] ∧
    String.prefix embedded base_prompt = true ∧
    String.length embedded = 200 `min` String.length base_prompt ∧
    (String.length base_prompt ≤ 200 → embedded = base_prompt).
Proof.
  intros Hc. exists (Py.slice_to 200 base_prompt). split_and!.
  - rewrite (step1_online _ _ c) by done. simpl.
    destruct (c _ _) as [response|e]; [destruct (text response)|]; done.
  - apply slice_to_prefix.
  - apply length_slice_to_min.
  - apply slice_to_all.
Qed.

Lemma short_brief_embedded_whole_witness :
  let brief := "Modern Bedroom with focus on Wood and Neutral tones. " in
  let mk := Sample.online (Sample.always (Raised "429 RESOURCE_EXHAUSTED")) in
  ∃ embedded,
    calls (snd (step1_enhance_prompt ∅ mk brief Sample.s0))
    = calls Sample.s0 ++
      [{| model := MODEL_TEXT ∅;
          contents := ContentsStr (step1_instruction +:+ "Room: " +:+ embedded);
          config := Some step1_config |}] ∧
    String.prefix embedded brief = true ∧
    String.length embedded = 200 `min` String.length brief ∧
    (String.length brief ≤ 200 → embedded = brief).
Proof.
  intros brief mk.
  apply (short_brief_embedded_whole ∅ mk
           (Sample.always (Raised "429 RESOURCE_EXHAUSTED")) brief Sample.s0).
  reflexivity.
Defined.

(** X3.  The 200 characters are counted from the start of the whole brief,
    selections included.  The sentence built from the four selections has
    29 characters plus the lengths of the selections; when it has at most
    200, the request stage 1 sends for the brief of the form carries that
    sentence whole and then only the first [200 - len sentence] characters
    of the free text. *)
Theorem details_truncated_after_prefix
    environ genai_Client c s
    room_type design_style material_focus color_palette additional_details :
  let prefix := brief_prefix room_type design_style material_focus color_palette in
  client environ genai_Client = Some c →
  String.length prefix ≤ 200 →
  String.length prefix
  = 29 + String.length design_style + String.length room_type
    + String.length material_focus + String.length color_palette ∧
  ∃ kept,
    calls (snd (step1_enhance_prompt environ genai_Client
                  (base_prompt room_type design_style material_focus
                     color_palette additional_details) s))
    = calls s ++
      [{| model := MODEL_TEXT environ;
          contents :=
            ContentsStr (step1_instruction +:+ "Room: " +:+ prefix +:+ kept);
          config := Some step1_config |}] ∧
    String.prefix kept additional_details = true ∧
    String.length kept
    = (200 - String.length prefix) `min` String.length additional_details.
Proof.
  intros prefix Hc Hlen. split.
  - unfold prefix, brief_prefix. rewrite !length_append. simpl. lia.
  - exists (Py.slice_to (200 - String.length prefix) additional_details).
    split_and!.
    + rewrite (step1_online _ _ c) by done. simpl.
      assert (step1_request environ
                (base_prompt room_type design_style material_focus
                   color_palette additional_details)
              = {| model := MODEL_TEXT environ;
                   contents :=
                     ContentsStr
                       (step1_instruction +:+ "Room: " +:+ prefix
                        +:+ Py.slice_to (200 - String.length prefix)
                              additional_details);
                   config := Some step1_config |}) as ->.
      { unfold step1_request, step1_prompt.
        by rewrite base_prompt_prefix, slice_to_append. }
      destruct (c _ _) as [response|e]; [destruct (text response)|]; done.
    + apply slice_to_prefix.
    + apply length_slice_to_min.
Qed.

Lemma details_truncated_after_prefix_witness :
  let mk := Sample.online (Sample.always (Raised "429 RESOURCE_EXHAUSTED")) in
  ∃ kept,
    calls (snd (step1_enhance_prompt ∅ mk
                  (base_prompt "Bedroom" "Scandinavian" "Wood" "Neutral"
                     Sample.long_details) Sample.s0))
    = calls Sample.s0 ++
      [{| model := MODEL_TEXT ∅;
          contents :=
            ContentsStr
              (step1_instruction +:+ "Room: "
               +:+ brief_prefix "Bedroom" "Scandinavian" "Wood" "Neutral"
               +:+ kept);
          config := Some step1_config |}] ∧
    String.prefix kept Sample.long_details = true ∧
    String.length kept
    = (200 - String.length
               (brief_prefix "Bedroom" "Scandinavian" "Wood" "Neutral"))
      `min` String.length Sample.long_details.
Proof.
  intros mk.
  apply (details_truncated_after_prefix ∅ mk
           (Sample.always (Raised "429 RESOURCE_EXHAUSTED")) Sample.s0
           "Bedroom" "Scandinavian" "Wood" "Neutral" Sample.long_details).
  - reflexivity.
  - vm_compute. lia.
Defined.

(** ** One call per stage *)

(** X4.  With a client, each stage function sends exactly one request,
    whatever the reply (a result, a refusal or an exception: nothing is
    tried again), and none of them touches the session state. *)
Theorem each_stage_sends_one_request
    environ genai_Client c base_prompt enhanced_prompt sketch_bytes s :
  client environ genai_Client = Some c →
  let r1 := step1_enhance_prompt environ genai_Client base_prompt s in
  let r2 := step2_generate_sketch environ genai_Client enhanced_prompt s in
  let r3 := step3_generate_render environ genai_Client sketch_bytes s in
  calls (snd r1) = calls s ++ [step1_request environ base_prompt] ∧
  calls (snd r2) = calls s ++ [step2_request environ enhanced_prompt] ∧
  calls (snd r3) = calls s ++ [step3_request environ sketch_bytes] ∧
  session_state (snd r1) = session_state s ∧
  session_state (snd r2) = session_state s ∧
  session_state (snd r3) = session_state s.
Proof.
  intros Hc r1 r2 r3. unfold r1, r2, r3.
  rewrite (step1_online _ _ c), (step2_online _ _ c), (step3_online _ _ c)
    by done.
  simpl. split_and!.
  - destruct (c _ _) as [response|e]; [destruct (text response)|]; done.
  - destruct (c _ _) as [response|e]; [destruct (step2_inspect response)|];
      by rewrite ?step2_except_eq.
  - destruct (c _ _) as [response|e]; [destruct (step3_inspect response)|];
      by rewrite ?step3_except_eq.
  - destruct (c _ _) as [response|e]; [destruct (text response)|]; done.
  - destruct (c _ _) as [response|e]; [destruct (step2_inspect response)|];
      by rewrite ?step2_except_eq.
  - destruct (c _ _) as [response|e]; [destruct (step3_inspect response)|];
      by rewrite ?step3_except_eq.
Qed.

Lemma each_stage_sends_one_request_witness :
  let mk := Sample.online (Sample.always (Raised "429 RESOURCE_EXHAUSTED")) in
  calls (snd (step1_enhance_prompt ∅ mk "Modern Bedroom" Sample.s0))
  = [step1_request ∅ "Modern Bedroom"].
Proof.
  intros mk.
  destruct (each_stage_sends_one_request ∅ mk
              (Sample.always (Raised "429 RESOURCE_EXHAUSTED"))
              "Modern Bedroom" "A bright room." Sample.png Sample.s0)
    as (H & _); [reflexivity|]. exact H.
Defined.

(** X5.  When the call raises, the stage returns [None] and shows the text
    of the exception after "Step N Error: "; stage 2 also prints it and the
    traceback. *)
Theorem failed_call_is_reported
    environ genai_Client c base_prompt enhanced_prompt sketch_bytes s e :
  client environ genai_Client = Some c →
  (c (calls s) (step1_request environ base_prompt) = Raised e →
   step1_enhance_prompt environ genai_Client base_prompt s
   = (None, shown [StError ("Step 1 Error: " +:+ e)]
              (sent (step1_request environ base_prompt) s))) ∧
  (c (calls s) (step2_request environ enhanced_prompt) = Raised e →
   step2_generate_sketch environ genai_Client enhanced_prompt s
   = (None, shown [StError ("Step 2 Error: " +:+ e);
                   PyPrint ("DEBUG STEP 2 ERROR: " +:+ e); PrintExc]
              (sent (step2_request environ enhanced_prompt) s))) ∧
  (c (calls s) (step3_request environ sketch_bytes) = Raised e →
   step3_generate_render environ genai_Client sketch_bytes s
   = (None, shown [StError ("Step 3 Error: " +:+ e)]
              (sent (step3_request environ sketch_bytes) s))).
Proof.
  intros Hc. split_and!; intros Hr.
  - rewrite (step1_online _ _ c) by done. simpl. by rewrite Hr.
  - rewrite (step2_online _ _ c) by done. simpl.
    by rewrite Hr, step2_except_eq.
  - rewrite (step3_online _ _ c) by done. simpl. by rewrite Hr.
Qed.

Lemma failed_call_is_reported_witness :
  let mk := Sample.online (Sample.always (Raised "429 RESOURCE_EXHAUSTED")) in
  step3_generate_render ∅ mk Sample.png Sample.s0
  = (None, shown [StError "Step 3 Error: 429 RESOURCE_EXHAUSTED"]
             (sent (step3_request ∅ Sample.png) Sample.s0)).
Proof.
  intros mk.
  destruct (failed_call_is_reported ∅ mk
              (Sample.always (Raised "429 RESOURCE_EXHAUSTED"))
              "Modern Bedroom" "A bright room." Sample.png Sample.s0
              "429 RESOURCE_EXHAUSTED")
    as (_ & _ & H); [reflexivity|]. by apply H.
Defined.

(** X6.  A reply without text ([response.text] is [None]) makes stage 1
    raise inside its [try]: the stage does exactly what it does when the
    call itself raises with the message of that [AttributeError]. *)
Theorem missing_text_handled_as_failed_call
    environ genai_Client c base_prompt s response :
  client environ genai_Client = Some c →
  c (calls s) (step1_request environ base_prompt) = Returned response →
  text response = None →
  step1_enhance_prompt environ genai_Client base_prompt s
  = (None,
     shown [StError "Step 1 Error: 'NoneType' object has no attribute 'strip'"]
       (sent (step1_request environ base_prompt) s)) ∧
  step1_enhance_prompt environ genai_Client base_prompt s
  = step1_enhance_prompt environ
      (λ _ _, inr (λ _ _, Raised (none_has_no "strip"))) base_prompt s.
Proof.
  intros Hc Hr Ht.
  rewrite (step1_online _ _ c) by done.
  rewrite (step1_online _ (λ _ _, inr (λ _ _, Raised (none_has_no "strip")))
             (λ _ _, Raised (none_has_no "strip"))) by done.
  simpl. by rewrite Hr, Ht.
Qed.

Lemma missing_text_handled_as_failed_call_witness :
  fst (step1_enhance_prompt ∅
         (Sample.online (Sample.always (Returned (Sample.image_response
            Sample.png))))
         "Modern Bedroom" Sample.s0) = None.
Proof.
  destruct (missing_text_handled_as_failed_call ∅
              (Sample.online (Sample.always (Returned (Sample.image_response
                 Sample.png))))
              (Sample.always (Returned (Sample.image_response Sample.png)))
              "Modern Bedroom" Sample.s0 (Sample.image_response Sample.png))
    as [H _]; [reflexivity..|].
  by rewrite H.
Defined.

(** X7.  A stage function never returns a value after showing something:
    whenever it adds an event, the first one is an [st.error] and the
    result is [None].  What was shown before is kept. *)
Theorem value_or_message_never_both
    environ genai_Client base_prompt enhanced_prompt sketch_bytes s :
  let outcome {A} (r : option A * State) :=
    ui (snd r) = ui s ∨
    (fst r = None ∧ ∃ msg rest, ui (snd r) = ui s ++ StError msg :: rest) in
  outcome (step1_enhance_prompt environ genai_Client base_prompt s) ∧
  outcome (step2_generate_sketch environ genai_Client enhanced_prompt s) ∧
  outcome (step3_generate_render environ genai_Client sketch_bytes s).
Proof.
  intros outcome. unfold outcome.
  destruct (client environ genai_Client) as [c|] eqn:Hc.
  - rewrite (step1_online _ _ c), (step2_online _ _ c), (step3_online _ _ c)
      by done.
    simpl. split_and!.
    + destruct (c _ _) as [response|e]; [destruct (text response)|]; simpl;
        eauto.
    + destruct (c _ _) as [response|e]; [destruct (step2_inspect response)|];
        rewrite ?step2_except_eq; simpl; eauto.
    + destruct (c _ _) as [response|e]; [destruct (step3_inspect response)|];
        rewrite ?step3_except_eq; simpl; eauto.
  - rewrite step1_offline, step2_offline, step3_offline by done. simpl. auto.
Qed.

(** * Further properties of the workflow *)

Section Runs.

Context (environ : gmap string string).
Context (genai_Client : option string → string → string + Client).
Context (Image_open : bytes → bool).
Context (room_type design_style material_focus color_palette : string).
Context (additional_details : string).
Context (generate_btn : bool).

Local Abbreviation step :=
  (step environ genai_Client Image_open room_type design_style material_focus
     color_palette additional_details generate_btn).
Local Abbreviation steps_to :=
  (steps_to environ genai_Client Image_open room_type design_style
     material_focus color_palette additional_details generate_btn).
Local Abbreviation reaches :=
  (reaches environ genai_Client Image_open room_type design_style
     material_focus color_palette additional_details generate_btn).
Local Abbreviation exec :=
  (exec environ genai_Client Image_open room_type design_style
     material_focus color_palette additional_details generate_btn).
Local Abbreviation run :=
  (run environ genai_Client Image_open room_type design_style
     material_focus color_palette additional_details generate_btn).
Local Abbreviation brief :=
  (base_prompt room_type design_style material_focus color_palette
     additional_details).

(** Every line but the end has a next statement. *)
Lemma step_progress l s : (∀ o, l ≠ Halt o) → ∃ m', step (l, s) = Some m'.
Proof.
  intros Hl. unfold_step.
  destruct l; repeat case_match; eauto. by destruct (Hl o).
Qed.

Lemma rank_halt l : 10 ≤ rank l → ∃ o, l = Halt o.
Proof. destruct l; simpl; try lia. eauto. Qed.

Lemma exec_halts n m :
  10 ≤ rank (fst m) + n → ∃ o s, exec n m = (Halt o, s).
Proof.
  revert m. induction n as [|n IH]; intros [l s] Hn; simpl in Hn.
  - destruct (rank_halt l) as [o ->]; [lia|]. eexists _, _. reflexivity.
  - exec_unfold. destruct (step (l, s)) as [[l' s']|] eqn:E.
    + apply IH.
      pose proof (step_rank _ _ _ _ _ _ _ _ _ _ _ _ _ E). simpl in *. lia.
    + destruct l;
        try (match type of E with
             | _ (?l, _) = None =>
                 destruct (step_progress l s) as [? E']; [done|];
                 rewrite E' in E; discriminate
             end).
      eexists _, _. reflexivity.
Qed.

(** A step only writes the three slots. *)
Lemma step_other_keys key l s l' s' :
  key ≠ "step1_text" → key ≠ "step2_image" → key ≠ "step3_image" →
  steps_to (l, s) (l', s') →
  session_state s' !! key = session_state s !! key.
Proof.
  intros H1 H2 H3 Hstep. unfold_step.
  destruct l; repeat case_match; simplify_eq; say_away;
    rewrite ?session_state_init_slot, ?lookup_init_map_ne by done; try done;
    match goal with
    | H : _ = (_, _) |- _ => stage_frame H; destruct H as [Hss _]
    end;
    unfold assign; simpl; rewrite lookup_insert_ne by done; by rewrite Hss.
Qed.

(** X10.  A run writes nothing but its three slots: every other key of the
    session state keeps its value (or stays absent) at every point. *)
Theorem other_session_keys_untouched ss key m :
  key ≠ "step1_text" → key ≠ "step2_image" → key ≠ "step3_image" →
  reaches (start ss) m →
  session_state (snd m) !! key = ss !! key.
Proof.
  intros H1 H2 H3. unfold_reaches. revert m. apply rtc_ind_r; [done|].
  intros [l s] [l' s'] _ Hstep IH. simpl in *. rewrite <- IH.
  by eapply step_other_keys.
Qed.

(** X13.  A stage whose result is found empty is reported with the status
    "Step N Failed": after stage 1 or stage 2 the run stops there with
    [st.stop()]; after stage 3 it does not stop and goes on to the footer. *)
Theorem failed_stage_is_reported ss n s :
  1 ≤ n ≤ 3 →
  reaches (start ss) (branch_line n, s) →
  filled s (slot_key n) = false →
  step (branch_line n, s)
  = Some (Halt (failed_outcome n),
          shown [StatusUpdate (failed_label n) "error"] s).
Proof.
  intros Hn Hreach Hempty.
  apply run_invariant_reaches in Hreach as (_ & _ & Hl).
  unfold filled in Hempty. unfold_step.
  destruct n as [|[|[|[|?]]]]; try lia; simpl in *.
  - destruct Hl as (_ & _ & r & Hr).
    rewrite (slot_lookup _ _ _ Hr) in Hempty. by rewrite Hr, Hempty.
  - destruct Hl as (_ & _ & r & Hr).
    rewrite (slot_lookup _ _ _ Hr) in Hempty. by rewrite Hr, Hempty.
  - destruct Hl as (_ & _ & r & Hr).
    rewrite (slot_lookup _ _ _ Hr) in Hempty. by rewrite Hr, Hempty.
Qed.

Lemma slot_text_ext s s' :
  session_state s' !! "step1_text" = session_state s !! "step1_text" →
  slot_text s' = slot_text s.
Proof. unfold slot_text, slot, lookup_slot. by intros ->. Qed.

Lemma slot_sketch_ext s s' :
  session_state s' !! "step2_image" = session_state s !! "step2_image" →
  slot_sketch s' = slot_sketch s.
Proof. unfold slot_sketch, slot, lookup_slot. by intros ->. Qed.

Lemma slot_text_lookup s t :
  session_state s !! "step1_text" = Some (VStr t) → slot_text s = t.
Proof. unfold slot_text, slot, lookup_slot. by intros ->. Qed.

Lemma slot_sketch_lookup s b :
  session_state s !! "step2_image" = Some (VBytes b) → slot_sketch s = b.
Proof. unfold slot_sketch, slot, lookup_slot. by intros ->. Qed.

Local Abbreviation online :=
  (match client environ genai_Client with Some _ => true | None => false end).

Lemma handoff_step m m' :
  handoff_invariant environ online brief m →
  steps_to m m' →
  handoff_invariant environ online brief m'.
Proof.
  destruct m as [l s], m' as [l' s']. intros Hl Hstep.
  unfold_step. unfold handoff_invariant, sent_at in *.
  destruct (client environ genai_Client) as [c|] eqn:Hc.
  - (* a client *)
    destruct l; simpl in Hl.
    + injection Hstep as <- <-. destruct generate_btn; [done|].
      exists 0. split; [lia | done].
    + injection Hstep as <- <-. by rewrite calls_init_slot.
    + injection Hstep as <- <-. by rewrite calls_init_slot.
    + injection Hstep as <- <-. by rewrite calls_init_slot.
    + rewrite (step1_online _ _ c) in Hstep by done. simpl in Hstep.
      say_away.
      destruct (c _ _) as [response|e]; [destruct (text response)|];
        injection Hstep as <- <-; simpl; by rewrite Hl.
    + (* 229 *)
      repeat case_match; simplify_eq; simpl; try done;
        exists 1; (split; [lia | exact Hl]).
    + (* 238 *)
      destruct (session_state s !! "step1_text") as [[|t|]|] eqn:Hk1;
        try (injection Hstep as <- <-; exists 1; split; [lia | exact Hl]).
      rewrite (step2_online _ _ c) in Hstep by done. simpl in Hstep.
      say_away.
      assert (∀ v s1, session_state s1 = session_state s →
                slot_text (assign "step2_image" v s1) = t) as Ht.
      { intros v s1 Hs1. apply slot_text_lookup. unfold assign. simpl.
        rewrite lookup_insert_ne by done. by rewrite Hs1. }
      destruct (c _ _) as [response|e]; [destruct (step2_inspect response)|];
        rewrite ?step2_except_eq in Hstep; injection Hstep as <- <-;
        simpl; rewrite Hl, Ht by done; done.
    + (* 239 *)
      repeat case_match; simplify_eq; simpl; try done;
        exists 2; (split; [lia | exact Hl]).
    + (* 250 *)
      destruct (session_state s !! "step2_image") as [[| |b]|] eqn:Hk2;
        try (injection Hstep as <- <-; exists 2; split; [lia | exact Hl]).
      rewrite (step3_online _ _ c) in Hstep by done. simpl in Hstep.
      say_away.
      assert (∀ v s1, session_state s1 = session_state s →
                slot_text (assign "step3_image" v s1) = slot_text s ∧
                slot_sketch (assign "step3_image" v s1) = b) as Hb.
      { intros v s1 Hs1. split.
        - apply slot_text_ext. unfold assign. simpl.
          rewrite lookup_insert_ne by done. by rewrite Hs1.
        - apply slot_sketch_lookup. unfold assign. simpl.
          rewrite lookup_insert_ne by done. by rewrite Hs1. }
      destruct (c _ _) as [response|e]; [destruct (step3_inspect response)|];
        rewrite ?step3_except_eq in Hstep; injection Hstep as <- <-;
        simpl; rewrite Hl; unfold expected_requests;
        (edestruct Hb as [-> ->]; [|done]); done.
    + (* 251 *)
      repeat case_match; simplify_eq; simpl; try done;
        exists 3; (split; [lia | exact Hl]).
    + done.
  - (* no client *)
    assert (Hnil : calls s = []) by (by destruct l).
    assert (Hnil' : calls s' = []).
    { rewrite ?step1_offline, ?step2_offline, ?step3_offline in Hstep by done.
      destruct l; repeat case_match; simplify_eq; say_away;
        rewrite ?calls_init_slot; try done;
        match goal with
        | H : _ = (_, _) |- _ =>
            rewrite ?step2_offline, ?step3_offline in H by done;
            injection H as <- <-
        end; by say_away. }
    destruct l'; try done. exists 0. split; [lia | done].
Qed.

Lemma handoff_reaches ss m :
  reaches (start ss) m → handoff_invariant environ online brief m.
Proof.
  unfold_reaches. revert m. apply rtc_ind_r.
  - unfold handoff_invariant, sent_at. simpl.
    by destruct (client environ genai_Client).
  - intros m m' _ Hstep IH. by eapply handoff_step.
Qed.

(** X8.  The requests of a run are, in this order, the stage-1 request for
    the brief of the form, the stage-2 request for the text that is in
    slot 1, and the stage-3 request carrying the bytes that are in slot 2:
    each stage is given exactly what the stage before it stored.  At every
    point the requests sent so far are the first [k] of these three. *)
Theorem requests_hand_results_on ss m :
  reaches (start ss) m →
  ∃ k, k ≤ 3 ∧
       calls (snd m)
       = take k [step1_request environ brief;
                 step2_request environ (slot_text (snd m));
                 step3_request environ (slot_sketch (snd m))].
Proof.
  intros Hreach. apply handoff_reaches in Hreach. destruct m as [l s].
  unfold handoff_invariant, sent_at in Hreach. simpl.
  destruct l; try done;
    (eexists; split; [|exact Hreach]);
    destruct (client environ genai_Client); simpl; lia.
Qed.

Lemma state_eq s s' :
  session_state s = session_state s' → calls s = calls s' → ui s = ui s' →
  s = s'.
Proof. destruct s, s'. simpl. by intros -> -> ->. Qed.

Lemma exec_S n m m' : step m = Some m' → exec (S n) m = exec n m'.
Proof. intros H. exec_unfold. by rewrite H. Qed.

(** The state before stage 1: the slots are initialised, nothing is sent
    or shown. *)
Lemma exec_to_stage1 ss n :
  generate_btn = true →
  exec (4 + n) (start ss)
  = exec n (L228, {| session_state := initialised ss; calls := []; ui := [] |}).
Proof.
  intros Hbtn. unfold start. change (4 + n) with (S (S (S (S n)))).
  erewrite exec_S; [|unfold_step; rewrite Hbtn; reflexivity].
  do 3 (erewrite exec_S; [|unfold_step; reflexivity]).
  f_equal. f_equal. apply state_eq.
  - by rewrite !session_state_init_slot.
  - by rewrite !calls_init_slot.
  - by rewrite !ui_init_slot.
Qed.

Lemma step_stage1 c s r t :
  client environ genai_Client = Some c →
  c (calls s) (step1_request environ brief) = Returned r →
  text r = Some t →
  step (L228, s)
  = Some (L229,
          assign "step1_text" (VStr (Py.strip t))
            (sent (step1_request environ brief)
               (say (StatusOpen "Step 1: Enhancing Design Brief...") s))).
Proof.
  intros Hc Hr Ht. unfold_step. rewrite (step1_online _ _ c) by done.
  simpl. say_away. by rewrite Hr, Ht.
Qed.

Lemma step_test1_ok s t :
  session_state s !! "step1_text" = Some (VStr t) → t ≠ "" →
  step (L229, s)
  = Some (L238,
          say (StatusUpdate "Brief Enhanced!" "complete")
            (say (StWrite ("**Enhanced Brief:** " +:+ t)) s)).
Proof. intros Hk Hne. unfold_step. rewrite Hk. by destruct t. Qed.

Lemma step_stage2 c s t r v :
  client environ genai_Client = Some c →
  session_state s !! "step1_text" = Some (VStr t) →
  c (calls s) (step2_request environ t) = Returned r →
  step2_inspect r = inr v →
  step (L238, s)
  = Some (L239,
          assign "step2_image" (of_bytes v)
            (sent (step2_request environ t)
               (say (StatusOpen "Step 2: Generating Architectural Sketch...")
                  s))).
Proof.
  intros Hc Hk Hr Hi. unfold_step. rewrite Hk.
  rewrite (step2_online _ _ c) by done. simpl. say_away. by rewrite Hr, Hi.
Qed.

Lemma step_test2_ok s b :
  session_state s !! "step2_image" = Some (VBytes b) → b ≠ [] →
  Image_open b = true →
  step (L239, s)
  = Some (L250,
          say (StatusUpdate "Sketch Generated!" "complete")
            (say (StImage b "GenAI Sketch") s)).
Proof. intros Hk Hne Ho. unfold_step. rewrite Hk. destruct b; [done|]. simpl. by rewrite Ho. Qed.

Lemma step_test2_crash s b :
  session_state s !! "step2_image" = Some (VBytes b) → b ≠ [] →
  Image_open b = false →
  step (L239, s) = Some (Halt Crashed, s).
Proof. intros Hk Hne Ho. unfold_step. rewrite Hk. destruct b; [done|]. simpl. by rewrite Ho. Qed.

Lemma step_stage3 c s b r v :
  client environ genai_Client = Some c →
  session_state s !! "step2_image" = Some (VBytes b) →
  c (calls s) (step3_request environ b) = Returned r →
  step3_inspect r = inr v →
  step (L250, s)
  = Some (L251,
          assign "step3_image" (of_bytes v)
            (sent (step3_request environ b)
               (say (StatusOpen "Step 3: Rendering Photorealistic Image...")
                  s))).
Proof.
  intros Hc Hk Hr Hi. unfold_step. rewrite Hk.
  rewrite (step3_online _ _ c) by done. simpl. say_away. by rewrite Hr, Hi.
Qed.

Lemma step_test3_ok s b :
  session_state s !! "step3_image" = Some (VBytes b) → b ≠ [] →
  Image_open b = true →
  step (L251, s)
  = Some (Halt Finished,
          say (StatusUpdate "Render Complete!" "complete")
            (say (StImage b "Final Render") s)).
Proof. intros Hk Hne Ho. unfold_step. rewrite Hk. destruct b; [done|]. simpl. by rewrite Ho. Qed.

(** X11.  When the button is pressed, the client answers the three
    requests with a text that is not blank, a sketch and a render (both
    with a non-empty payload that decodes), the run reaches the footer with
    the trimmed text, the sketch and the render in the three slots, having
    sent exactly the three requests and shown no error. *)
Theorem successful_run_fills_the_slots ss c r1 t r2 b2 r3 b3 :
  generate_btn = true →
  client environ genai_Client = Some c →
  c [] (step1_request environ brief) = Returned r1 →
  text r1 = Some t → Py.strip t ≠ "" →
  c [step1_request environ brief] (step2_request environ (Py.strip t))
  = Returned r2 →
  step2_inspect r2 = inr (Some b2) → b2 ≠ [] → Image_open b2 = true →
  c [step1_request environ brief; step2_request environ (Py.strip t)]
    (step3_request environ b2) = Returned r3 →
  step3_inspect r3 = inr (Some b3) → b3 ≠ [] → Image_open b3 = true →
  fst (run ss) = Halt Finished ∧
  slot (snd (run ss)) "step1_text" = VStr (Py.strip t) ∧
  slot (snd (run ss)) "step2_image" = VBytes b2 ∧
  slot (snd (run ss)) "step3_image" = VBytes b3 ∧
  calls (snd (run ss))
  = [step1_request environ brief; step2_request environ (Py.strip t);
     step3_request environ b2] ∧
  errors (snd (run ss)) = [].
Proof.
  intros Hbtn Hc H1 Ht Hne H2 Hi2 Hb2 Ho2 H3 Hi3 Hb3 Ho3.
  change (run ss) with (exec (4 + 6) (start ss)).
  rewrite exec_to_stage1 by done.
  erewrite exec_S; [|by eapply step_stage1].
  erewrite exec_S; [|eapply step_test1_ok; [apply lookup_insert_eq | done]].
  erewrite exec_S;
    [|eapply (step_stage2 c _ (Py.strip t));
      [done | apply lookup_insert_eq | exact H2 | exact Hi2]].
  erewrite exec_S; [|eapply step_test2_ok; [apply lookup_insert_eq | done..]].
  erewrite exec_S;
    [|eapply (step_stage3 c _ b2);
      [done | apply lookup_insert_eq | exact H3 | exact Hi3]].
  erewrite exec_S; [|eapply step_test3_ok; [apply lookup_insert_eq | done..]].
  exec_unfold. unfold slot, lookup_slot, errors. simpl.
  split_and!; try done; by simplify_map_eq.
Qed.

(** X12.  When stage 2 returns a non-empty payload that [Image.open]
    cannot decode, the exception escapes at line 241: the run ends there
    with the payload stored in slot 2, stage 3 is never called and the
    render slot is as the run found it. *)
Theorem undecodable_sketch_ends_the_run ss c r1 t r2 b2 :
  generate_btn = true →
  client environ genai_Client = Some c →
  c [] (step1_request environ brief) = Returned r1 →
  text r1 = Some t → Py.strip t ≠ "" →
  c [step1_request environ brief] (step2_request environ (Py.strip t))
  = Returned r2 →
  step2_inspect r2 = inr (Some b2) → b2 ≠ [] → Image_open b2 = false →
  fst (run ss) = Halt Crashed ∧
  slot (snd (run ss)) "step2_image" = VBytes b2 ∧
  slot (snd (run ss)) "step3_image" = lookup_slot ss "step3_image" ∧
  calls (snd (run ss))
  = [step1_request environ brief; step2_request environ (Py.strip t)] ∧
  errors (snd (run ss)) = [].
Proof.
  intros Hbtn Hc H1 Ht Hne H2 Hi2 Hb2 Ho2.
  change (run ss) with (exec (4 + 6) (start ss)).
  rewrite exec_to_stage1 by done.
  erewrite exec_S; [|by eapply step_stage1].
  erewrite exec_S; [|eapply step_test1_ok; [apply lookup_insert_eq | done]].
  erewrite exec_S;
    [|eapply (step_stage2 c _ (Py.strip t));
      [done | apply lookup_insert_eq | exact H2 | exact Hi2]].
  erewrite exec_S; [|eapply step_test2_crash; [apply lookup_insert_eq | done..]].
  exec_unfold. unfold slot, errors. simpl.
  split_and!; try done.
  - unfold lookup_slot. by simplify_map_eq.
  - unfold lookup_slot at 1. rewrite !lookup_insert_ne by done.
    by apply lookup_slot_initialised.
Qed.

(** X14.  When the inline data stage 2 finds has an empty payload, the
    stage function returns the empty bytes, not [None], and shows nothing;
    the workflow finds the slot empty at line 239, reports that step 2
    failed and stops without a request for stage 3. *)
Theorem empty_payload_counts_as_failure c s t r :
  client environ genai_Client = Some c →
  session_state s !! "step1_text" = Some (VStr t) →
  c (calls s) (step2_request environ t) = Returned r →
  step2_inspect r = inr (Some []) →
  step2_generate_sketch environ genai_Client t s
  = (Some [], sent (step2_request environ t) s) ∧
  exec 2 (L238, s)
  = (Halt Stopped,
     {| session_state := <["step2_image" := VBytes []]> (session_state s);
        calls := calls s ++ [step2_request environ t];
        ui := ui s ++ [StatusOpen "Step 2: Generating Architectural Sketch...";
                       StatusUpdate "Step 2 Failed" "error"] |}).
Proof.
  intros Hc Hk Hr Hi. split.
  - rewrite (step2_online _ _ c) by done. simpl. by rewrite Hr, Hi.
  - erewrite exec_S; [|by eapply (step_stage2 c)].
    erewrite exec_S.
    + exec_unfold. reflexivity.
    + unfold_step. unfold assign, say, sent. simpl.
      rewrite lookup_insert_eq. simpl. by rewrite <- app_assoc.
Qed.

(** X15.  The indicator under the title tells what the stage functions
    will do: it reads "System Offline" (in red) exactly when stage 1
    returns [None] at once without sending anything, and "System Online"
    (in green) exactly when stage 1 sends its request. *)
Theorem indicator_tells_whether_stages_call :
  (status_text environ genai_Client = "System Offline" ↔
   ∀ base_prompt s,
     step1_enhance_prompt environ genai_Client base_prompt s = (None, s)) ∧
  (status_text environ genai_Client = "System Online" ↔
   ∀ base_prompt s,
     calls (snd (step1_enhance_prompt environ genai_Client base_prompt s))
     = calls s ++ [step1_request environ base_prompt]) ∧
  (status_color environ genai_Client = "#ff1744" ↔
   status_text environ genai_Client = "System Offline") ∧
  (status_color environ genai_Client = "#00e676" ↔
   status_text environ genai_Client = "System Online").
Proof.
  unfold status_text, status_color.
  destruct (client environ genai_Client) as [c|] eqn:Hc;
    split_and!; split; intros H; try done.
  - specialize (H "" Sample.s0).
    rewrite (step1_online _ _ c) in H by done. simpl in H.
    destruct (c _ _) as [response|e]; [destruct (text response)|];
      inversion H.
  - intros base_prompt s. rewrite (step1_online _ _ c) by done. simpl.
    destruct (c _ _) as [response|e]; [destruct (text response)|]; done.
  - intros base_prompt s. by apply step1_offline.
  - specialize (H "" Sample.s0). rewrite step1_offline in H by done.
    simpl in H. by destruct (calls Sample.s0).
Qed.

Lemma errors_say e s :
  errors (say e s) = errors s ++ (if is_error e then [e] else []).
Proof.
  unfold errors, say, emit. simpl. rewrite filter_app. by destruct e.
Qed.

Lemma errors_assign key v s : errors (assign key v s) = errors s.
Proof. done. Qed.

Lemma errors_init_slot key v s : errors (init_slot key v s) = errors s.
Proof. unfold errors. by rewrite ui_init_slot. Qed.

Lemma errors_shown es s : errors (shown es s) = errors s ++ filter is_error es.
Proof. unfold errors, shown. simpl. by rewrite filter_app. Qed.

(** A stage shows an error only when it returns [None], and then one. *)
Lemma step1_errors base_prompt s r s' :
  step1_enhance_prompt environ genai_Client base_prompt s = (r, s') →
  errors s' = errors s ∨ (r = None ∧ ∃ msg, errors s' = errors s ++ [StError msg]).
Proof.
  destruct (client environ genai_Client) as [c|] eqn:Hc.
  - rewrite (step1_online _ _ c) by done. simpl.
    destruct (c _ _) as [response|e]; [destruct (text response)|];
      intros [= <- <-]; rewrite ?errors_shown; simpl; eauto.
  - rewrite step1_offline by done. intros [= <- <-]. auto.
Qed.

Lemma step2_errors enhanced_prompt s r s' :
  step2_generate_sketch environ genai_Client enhanced_prompt s = (r, s') →
  errors s' = errors s ∨ (r = None ∧ ∃ msg, errors s' = errors s ++ [StError msg]).
Proof.
  destruct (client environ genai_Client) as [c|] eqn:Hc.
  - rewrite (step2_online _ _ c) by done. simpl.
    destruct (c _ _) as [response|e]; [destruct (step2_inspect response)|];
      rewrite ?step2_except_eq; intros [= <- <-]; rewrite ?errors_shown;
      simpl; eauto.
  - rewrite step2_offline by done. intros [= <- <-]. auto.
Qed.

Lemma step3_errors sketch_bytes s r s' :
  step3_generate_render environ genai_Client sketch_bytes s = (r, s') →
  errors s' = errors s ∨ (r = None ∧ ∃ msg, errors s' = errors s ++ [StError msg]).
Proof.
  destruct (client environ genai_Client) as [c|] eqn:Hc.
  - rewrite (step3_online _ _ c) by done. simpl.
    destruct (c _ _) as [response|e]; [destruct (step3_inspect response)|];
      rewrite ?step3_except_eq; intros [= <- <-]; rewrite ?errors_shown;
      simpl; eauto.
  - rewrite step3_offline by done. intros [= <- <-]. auto.
Qed.

Lemma error_invariant_step m m' :
  error_invariant m → steps_to m m' → error_invariant m'.
Proof.
  destruct m as [l s], m' as [l' s']. intros Hl Hstep.
  unfold_step. unfold error_invariant in *. destruct l.
  - injection Hstep as <- <-. destruct generate_btn; [done|].
    rewrite Hl. simpl. lia.
  - injection Hstep as <- <-. by rewrite errors_init_slot.
  - injection Hstep as <- <-. by rewrite errors_init_slot.
  - injection Hstep as <- <-. by rewrite errors_init_slot.
  - (* 228 *)
    destruct (step1_enhance_prompt _ _ _ _) as [r s1] eqn:E.
    apply step1_errors in E. rewrite errors_say, Hl in E. simpl in E.
    injection Hstep as <- <-. rewrite errors_assign.
    destruct E as [E | (-> & msg & E)]; [by left | right].
    split; [by rewrite E | apply lookup_insert_eq].
  - (* 229 *)
    destruct (session_state s !! "step1_text") as [v|] eqn:Hk.
    + destruct (truthy v) eqn:Hv.
      * destruct Hl as [Hl | [_ [= ->]]]; [|done].
        destruct v; injection Hstep as <- <-; rewrite ?errors_say, Hl;
          simpl; done || lia.
      * injection Hstep as <- <-. rewrite errors_say. simpl.
        rewrite app_nil_r. destruct Hl as [-> | [-> _]]; simpl; lia.
    + injection Hstep as <- <-. destruct Hl as [-> | [-> _]]; simpl; lia.
  - (* 238 *)
    destruct (session_state s !! "step1_text") as [[|t|]|];
      try (injection Hstep as <- <-; rewrite Hl; simpl; lia).
    destruct (step2_generate_sketch _ _ _ _) as [r s1] eqn:E.
    apply step2_errors in E. rewrite errors_say, Hl in E. simpl in E.
    injection Hstep as <- <-. rewrite errors_assign.
    destruct E as [E | (-> & msg & E)]; [by left | right].
    split; [by rewrite E | apply lookup_insert_eq].
  - (* 239 *)
    destruct (session_state s !! "step2_image") as [v|] eqn:Hk.
    + destruct (truthy v) eqn:Hv.
      * destruct Hl as [Hl | [_ [= ->]]]; [|done].
        destruct v; try destruct (Image_open _); injection Hstep as <- <-;
          rewrite ?errors_say, Hl; simpl; done || lia.
      * injection Hstep as <- <-. rewrite errors_say. simpl.
        rewrite app_nil_r. destruct Hl as [-> | [-> _]]; simpl; lia.
    + injection Hstep as <- <-. destruct Hl as [-> | [-> _]]; simpl; lia.
  - (* 250 *)
    destruct (session_state s !! "step2_image") as [[| |b]|];
      try (injection Hstep as <- <-; rewrite Hl; simpl; lia).
    destruct (step3_generate_render _ _ _ _) as [r s1] eqn:E.
    apply step3_errors in E. rewrite errors_say, Hl in E. simpl in E.
    injection Hstep as <- <-. rewrite errors_assign.
    destruct E as [E | (-> & msg & E)]; [by left | right].
    split; [by rewrite E | apply lookup_insert_eq].
  - (* 251 *)
    destruct (session_state s !! "step3_image") as [v|] eqn:Hk.
    + destruct (truthy v) eqn:Hv.
      * destruct Hl as [Hl | [_ [= ->]]]; [|done].
        destruct v; try destruct (Image_open _); injection Hstep as <- <-;
          rewrite ?errors_say, Hl; simpl; done || lia.
      * injection Hstep as <- <-. rewrite errors_say. simpl.
        rewrite app_nil_r. destruct Hl as [-> | [-> _]]; simpl; lia.
    + injection Hstep as <- <-. destruct Hl as [-> | [-> _]]; simpl; lia.
  - done.
Qed.

(** X16.  A run shows at most one [st.error] message: a stage shows one
    only when it returns [None], and the run then goes on to no other
    stage. *)
Theorem at_most_one_error_shown ss m :
  reaches (start ss) m → length (errors (snd m)) ≤ 1.
Proof.
  intros Hreach.
  assert (error_invariant m) as Hinv.
  { revert m Hreach. unfold_reaches. apply rtc_ind_r; [done|].
    intros m m' _ Hstep IH. by eapply error_invariant_step. }
  destruct m as [l s]. unfold error_invariant in Hinv. simpl.
  destruct l; try (rewrite Hinv; simpl; lia); try done;
    destruct Hinv as [-> | [-> _]]; simpl; lia.
Qed.

End Runs.

(** ** The further properties on sample data *)

Lemma requests_hand_results_on_witness :
  let m := Sample.script Sample.replies_ok 10 ∅ in
  ∃ k, k ≤ 3 ∧
       calls (snd m)
       = take k [step1_request ∅
                   (base_prompt "Bedroom" "Scandinavian" "Wood" "Neutral" "");
                 step2_request ∅ (slot_text (snd m));
                 step3_request ∅ (slot_sketch (snd m))].
Proof.
  apply (requests_hand_results_on ∅
           (Sample.online (Sample.scripted Sample.replies_ok)) (λ _, true)
           "Bedroom" "Scandinavian" "Wood" "Neutral" "" true ∅).
  apply reaches_exec.
Defined.

Lemma other_session_keys_untouched_witness :
  let ss : gmap string value := {["theme" := VStr "dark"]} in
  session_state (snd (Sample.script Sample.replies_ok 10 ss)) !! "theme"
  = Some (VStr "dark").
Proof.
  intros ss.
  apply (other_session_keys_untouched ∅
           (Sample.online (Sample.scripted Sample.replies_ok)) (λ _, true)
           "Bedroom" "Scandinavian" "Wood" "Neutral" "" true ss "theme");
    [done..|].
  apply reaches_exec.
Defined.

Lemma failed_stage_is_reported_witness :
  let at_test := Sample.script Sample.replies_refused 7 ∅ in
  step ∅ (Sample.online (Sample.scripted Sample.replies_refused)) (λ _, true)
    "Bedroom" "Scandinavian" "Wood" "Neutral" "" true (L239, snd at_test)
  = Some (Halt Stopped,
          shown [StatusUpdate "Step 2 Failed" "error"] (snd at_test)).
Proof.
  intros at_test.
  assert (E : (branch_line 2, snd at_test) = at_test)
    by (vm_compute; reflexivity).
  apply (failed_stage_is_reported ∅
           (Sample.online (Sample.scripted Sample.replies_refused)) (λ _, true)
           "Bedroom" "Scandinavian" "Wood" "Neutral" "" true ∅ 2 (snd at_test)).
  - lia.
  - rewrite E. apply reaches_exec.
  - vm_compute. reflexivity.
Defined.

Lemma successful_run_fills_the_slots_witness :
  let m := run ∅ (Sample.online (Sample.scripted Sample.replies_ok)) (λ _, true)
             "Bedroom" "Scandinavian" "Wood" "Neutral" "" true ∅ in
  fst m = Halt Finished ∧
  slot (snd m) "step1_text" = VStr Sample.enhanced ∧
  slot (snd m) "step2_image" = VBytes Sample.png ∧
  slot (snd m) "step3_image" = VBytes Sample.png.
Proof.
  intros m.
  destruct (successful_run_fills_the_slots ∅
              (Sample.online (Sample.scripted Sample.replies_ok)) (λ _, true)
              "Bedroom" "Scandinavian" "Wood" "Neutral" "" true ∅
              (Sample.scripted Sample.replies_ok)
              (Sample.text_response Sample.enhanced) Sample.enhanced
              (Sample.image_response Sample.png) Sample.png
              (Sample.image_response Sample.png) Sample.png)
    as (H0 & H1 & H2 & H3 & _); [done..|].
  split_and!; [exact H0 | exact H1 | exact H2 | exact H3].
Defined.

Lemma undecodable_sketch_ends_the_run_witness :
  let replies :=
    [Returned (Sample.text_response Sample.enhanced);
     Returned (Sample.response_of
                 [Sample.inline_part Sample.pdf "application/pdf"] None)] in
  let m := run ∅ (Sample.online (Sample.scripted replies)) (λ _, false)
             "Bedroom" "Scandinavian" "Wood" "Neutral" "" true ∅ in
  fst m = Halt Crashed ∧
  slot (snd m) "step2_image" = VBytes Sample.pdf ∧
  length (calls (snd m)) = 2.
Proof.
  intros replies m.
  destruct (undecodable_sketch_ends_the_run ∅
              (Sample.online (Sample.scripted replies)) (λ _, false)
              "Bedroom" "Scandinavian" "Wood" "Neutral" "" true ∅
              (Sample.scripted replies)
              (Sample.text_response Sample.enhanced) Sample.enhanced
              (Sample.response_of
                 [Sample.inline_part Sample.pdf "application/pdf"] None)
              Sample.pdf)
    as (H0 & H1 & _ & H2 & _); [done..|].
  split_and!; [exact H0 | exact H1 |]. unfold m. by rewrite H2.
Defined.

Lemma empty_payload_counts_as_failure_witness :
  let reply := Returned (Sample.image_response []) in
  let mk := Sample.online (Sample.always reply) in
  let s := {| session_state := {["step1_text" := VStr "A bright room."]};
              calls := []; ui := [] |} in
  step2_generate_sketch ∅ mk "A bright room." s
  = (Some [], sent (step2_request ∅ "A bright room.") s) ∧
  fst (exec ∅ mk (λ _, true) "Bedroom" "Modern" "Wood" "Neutral" "" true 2
         (L238, s)) = Halt Stopped.
Proof.
  intros reply mk s.
  destruct (empty_payload_counts_as_failure ∅ mk (λ _, true)
              "Bedroom" "Modern" "Wood" "Neutral" "" true
              (Sample.always reply) s "A bright room."
              (Sample.image_response []))
    as [H1 H2]; [done..|].
  split; [exact H1 | by rewrite H2].
Defined.

Lemma at_most_one_error_shown_witness :
  length (errors (snd (Sample.script Sample.replies_down 10 ∅))) ≤ 1.
Proof.
  apply (at_most_one_error_shown ∅
           (Sample.online (Sample.scripted Sample.replies_down)) (λ _, true)
           "Bedroom" "Scandinavian" "Wood" "Neutral" "" true ∅).
  apply reaches_exec.
Defined.
